(** * astrogaia-jupyter: catalogue loader and parameter store

    A shallow embedding of [Parameters.py] and [Parameters_JSON.py].

    - Python strings are [string]s over ASCII; [str.upper] is modelled on
      the ASCII letters, which is what catalogue identifiers are made of.
    - Python values that can sit in a dataclass field are [pyval]s; no
      dataclass of the program checks its annotations at run time.
    - Exceptions are an inductive type and fallible code lives in the
      [result] monad.
    - Floating point numbers, the literal parsers behind [float()] and
      [int()], the [numpy.loadtxt] field converters and [repr] are the
      fields of the class [PyRuntime]; [json.loads] and dataclass-wizard's
      [from_dict] are the fields of [JsonWizard].  The program only moves
      these values around, it never computes with them.
    - [numpy.loadtxt] follows NumPy 1.23 and later (the reader that names
      the row in its error messages). *)

From Stdlib Require Import String Ascii List ZArith QArith Bool Arith Lia.
Import ListNotations.
Local Close Scope Q_scope.
Local Open Scope string_scope.
Local Open Scope list_scope.

Set Implicit Arguments.

(** ** Exceptions and the error monad *)

Inductive exception : Type :=
| OSError                          (* FileNotFoundError, PermissionError, ... *)
| ValueError (row : option nat)    (* [Some i]: raised by loadtxt at data row i *)
| TypeError
| OverflowError
| NameError
| AttributeError
| JSONDecodeError
| ParseError                       (* dataclass_wizard.errors *)
| ClusterNotFound.                 (* class ClusterNotFound(Error) *)

Inductive result (A : Type) : Type :=
| Ok (a : A)
| Err (e : exception).

Arguments Ok {A} a.
Arguments Err {A} e.

Definition bind {A B : Type} (m : result A) (k : A -> result B) : result B :=
  match m with
  | Ok a => k a
  | Err e => Err e
  end.

Notation "x <- m ;; k" := (bind m (fun x => k))
  (at level 61, m at next level, right associativity).

Definition or_raise {A : Type} (o : option A) (e : exception) : result A :=
  match o with
  | Some a => Ok a
  | None => Err e
  end.

(** ** Strings *)

Definition is_lower (c : ascii) : bool :=
  (97 <=? nat_of_ascii c)%nat && (nat_of_ascii c <=? 122)%nat.

Definition is_upper (c : ascii) : bool :=
  (65 <=? nat_of_ascii c)%nat && (nat_of_ascii c <=? 90)%nat.

Definition to_upper (c : ascii) : ascii :=
  if is_lower c then ascii_of_nat (nat_of_ascii c - 32) else c.

Definition to_lower (c : ascii) : ascii :=
  if is_upper c then ascii_of_nat (nat_of_ascii c + 32) else c.

(** [s.upper()] *)
Fixpoint upper (s : string) : string :=
  match s with
  | EmptyString => EmptyString
  | String c s' => String (to_upper c) (upper s')
  end.

(** Two characters are the same letter when they are equal or one is the
    other with its case changed. *)
Definition same_letter (c d : ascii) : bool :=
  Ascii.eqb c d
  || (is_lower c && Ascii.eqb d (to_upper c))
  || (is_upper c && Ascii.eqb d (to_lower c)).

(** [case_variant s t]: [t] is [s] with the case of some letters changed. *)
Fixpoint case_variant (s t : string) : bool :=
  match s, t with
  | EmptyString, EmptyString => true
  | String c s', String d t' => same_letter c d && case_variant s' t'
  | _, _ => false
  end.

(** [s[:n]] *)
Fixpoint truncate (n : nat) (s : string) : string :=
  match n, s with
  | O, _ => EmptyString
  | S n', String c s' => String c (truncate n' s')
  | S _, EmptyString => EmptyString
  end.

Definition LF : ascii := ascii_of_nat 10.
Definition CR : ascii := ascii_of_nat 13.
Definition hash : ascii := ascii_of_nat 35.

(** [c.isspace()] on the ASCII range: the blank, the controls from tab to
    carriage return, and the four separators from FS to US. *)
Definition is_space (c : ascii) : bool :=
  let n := nat_of_ascii c in
  (n =? 32)%nat || ((9 <=? n)%nat && (n <=? 13)%nat)
  || ((28 <=? n)%nat && (n <=? 31)%nat).

Definition is_newline (c : ascii) : bool :=
  Ascii.eqb c LF || Ascii.eqb c CR.

(** The lines of a text file opened in text mode, without their line ends.
    A CR LF pair gives an extra empty line, which every reader below
    drops. *)
Fixpoint splitlines_from (cur : string) (s : string) : list string :=
  match s with
  | EmptyString => [cur]
  | String c s' =>
      if is_newline c then cur :: splitlines_from EmptyString s'
      else splitlines_from (cur ++ String c EmptyString) s'
  end.

Definition splitlines (s : string) : list string :=
  splitlines_from EmptyString s.

(** The part of a line before the comment character. *)
Fixpoint strip_comment (s : string) : string :=
  match s with
  | EmptyString => EmptyString
  | String c s' => if Ascii.eqb c hash then EmptyString
                   else String c (strip_comment s')
  end.

(** [line.split()]: the maximal runs of non-blank characters. *)
Fixpoint split_from (cur : string) (s : string) : list string :=
  match s with
  | EmptyString =>
      match cur with EmptyString => [] | _ => [cur] end
  | String c s' =>
      if is_space c then
        match cur with
        | EmptyString => split_from EmptyString s'
        | _ => cur :: split_from EmptyString s'
        end
      else split_from (cur ++ String c EmptyString) s'
  end.

Definition split (s : string) : list string := split_from EmptyString s.

(** ** The Python runtime the program relies on *)

Class PyRuntime : Type := {
  pyfloat : Type;                          (* IEEE 754 doubles *)
  float_zero : pyfloat;                    (* the literal [0.] *)
  float_of_str : string -> option pyfloat; (* [float(s)], [None]: ValueError *)
  int_of_str : string -> option Z;         (* [int(s)], [None]: ValueError *)
  float_of_int : Z -> option pyfloat;      (* [float(n)], [None]: OverflowError *)
  float_trunc : pyfloat -> option Z;       (* [int(x)], [None]: inf or nan *)
  float_is_nan : pyfloat -> bool;
  np_float : string -> option pyfloat;     (* loadtxt converter of a float64 field *)
  np_int : string -> option Z;             (* loadtxt converter of an int64 field *)
  repr : string -> string                  (* [repr(s)] of a str *)
}.

Section Values.
Context {RT : PyRuntime}.

Inductive pyval : Type :=
| PyNone
| PyBool (b : bool)
| PyInt (n : Z)
| PyFloat (x : pyfloat)
| PyStr (s : string)
| PyObject.                    (* a class, a function, a module, ... *)

(** [float(v)] *)
Definition float_ (v : pyval) : result pyval :=
  match v with
  | PyFloat x => Ok (PyFloat x)
  | PyInt n => x <- or_raise (float_of_int n) OverflowError ;; Ok (PyFloat x)
  | PyBool b => x <- or_raise (float_of_int (Z.b2z b)) OverflowError ;; Ok (PyFloat x)
  | PyStr s => x <- or_raise (float_of_str s) (ValueError None) ;; Ok (PyFloat x)
  | PyNone | PyObject => Err TypeError
  end.

(** [int(v)] *)
Definition int_ (v : pyval) : result pyval :=
  match v with
  | PyInt n => Ok (PyInt n)
  | PyBool b => Ok (PyInt (Z.b2z b))
  | PyFloat x =>
      match float_trunc x with
      | Some n => Ok (PyInt n)
      | None => if float_is_nan x then Err (ValueError None) else Err OverflowError
      end
  | PyStr s => n <- or_raise (int_of_str s) (ValueError None) ;; Ok (PyInt n)
  | PyNone | PyObject => Err TypeError
  end.

(** [v.upper()] for a value of unknown class *)
Definition upper_method (v : pyval) : result string :=
  match v with
  | PyStr s => Ok (upper s)
  | _ => Err AttributeError
  end.

(** A numeric field that holds zero, as an int or as a float. *)
Definition is_zero (v : pyval) : Prop :=
  v = PyInt 0 \/ v = PyFloat float_zero.

End Values.

(** A file system: the text behind each path that can be opened for
    reading. *)
Definition filesystem : Type := string -> option string.

(** [open(fname, 'r').read()] *)
Definition read_text (fs : filesystem) (fname : string) : result string :=
  or_raise (fs fname) OSError.

(** ** numpy *)

Module np.
Section Loadtxt.
Context {RT : PyRuntime}.

(** Arrays of dimension 0 and 1; the program meets no others. *)
Inductive ndarray (A : Type) : Type :=
| array0 (x : A)
| array1 (xs : list A).

(** [iter(a)]: a 0-d array cannot be iterated over. *)
Definition iter {A : Type} (a : ndarray A) : result (list A) :=
  match a with
  | array0 _ => Err TypeError
  | array1 xs => Ok xs
  end.

(** [np.squeeze] of a 1-d array: an axis of length one is removed. *)
Definition squeeze {A : Type} (xs : list A) : ndarray A :=
  match xs with
  | [x] => array0 x
  | _ => array1 xs
  end.

(** [a[field]] *)
Definition field {A B : Type} (f : A -> B) (a : ndarray A) : ndarray B :=
  match a with
  | array0 x => array0 (f x)
  | array1 xs => array1 (map f xs)
  end.

(** One element of the structured array, for the dtype
    [[("name", np.unicode_, 16), ("ra", float), ..., ("N_stars", int)]]. *)
Record row : Type := mkrow {
  name : string;
  ra : pyfloat;
  dec : pyfloat;
  dist : pyfloat;
  hrv : pyfloat;
  err_hrv : pyfloat;
  pmRA : pyfloat;
  pmDEC : pyfloat;
  err_pmRA : pyfloat;
  err_pmDEC : pyfloat;
  corr : pyfloat;
  r_h : pyfloat;
  N_stars : Z
}.

(** The rows of the text: each line up to its comment, split at white
    space; lines left without a field are skipped. *)
Definition data_rows (text : string) : list (list string) :=
  filter (fun toks => match toks with [] => false | _ => true end)
         (map (fun line => split (strip_comment line)) (splitlines text)).

(** The fields of data row [i], converted by position.  A row that has
    not 13 fields, or a field that its converter rejects, raises a
    ValueError that names the row.  A name longer than 16 characters is
    cut to fit the field. *)
Definition convert_row (i : nat) (toks : list string) : result row :=
  match toks with
  | [t0; t1; t2; t3; t4; t5; t6; t7; t8; t9; t10; t11; t12] =>
      let bad := ValueError (Some i) in
      v1 <- or_raise (np_float t1) bad ;;
      v2 <- or_raise (np_float t2) bad ;;
      v3 <- or_raise (np_float t3) bad ;;
      v4 <- or_raise (np_float t4) bad ;;
      v5 <- or_raise (np_float t5) bad ;;
      v6 <- or_raise (np_float t6) bad ;;
      v7 <- or_raise (np_float t7) bad ;;
      v8 <- or_raise (np_float t8) bad ;;
      v9 <- or_raise (np_float t9) bad ;;
      v10 <- or_raise (np_float t10) bad ;;
      v11 <- or_raise (np_float t11) bad ;;
      v12 <- or_raise (np_int t12) bad ;;
      Ok (mkrow (truncate 16 t0) v1 v2 v3 v4 v5 v6 v7 v8 v9 v10 v11 v12)
  | _ => Err (ValueError (Some i))
  end.

Fixpoint read_rows (i : nat) (rows : list (list string)) : result (list row) :=
  match rows with
  | [] => Ok []
  | toks :: rest =>
      r <- convert_row i toks ;;
      rs <- read_rows (S i) rest ;;
      Ok (r :: rs)
  end.

Definition columns : Type :=
  (ndarray string * ndarray pyfloat * ndarray pyfloat * ndarray pyfloat
   * ndarray pyfloat * ndarray pyfloat * ndarray pyfloat * ndarray pyfloat
   * ndarray pyfloat * ndarray pyfloat * ndarray pyfloat * ndarray pyfloat
   * ndarray Z)%type.

(** [np.loadtxt(fname, dtype=data_type, comments='#', unpack=True)]:
    the file is read, the rows are converted, the array is squeezed
    (ndmin is 0) and one array per field is returned.  A file without
    rows gives arrays of length 0 (and a warning, which is no error). *)
Definition loadtxt (fs : filesystem) (fname : string) : result columns :=
  text <- read_text fs fname ;;
  rows <- read_rows 0 (data_rows text) ;;
  let arr := squeeze rows in
  Ok (field name arr, field ra arr, field dec arr, field dist arr,
      field hrv arr, field err_hrv arr, field pmRA arr, field pmDEC arr,
      field err_pmRA arr, field err_pmDEC arr, field corr arr,
      field r_h arr, field N_stars arr).

End Loadtxt.
End np.

(** ** The dataclasses *)

Module VasilievData.
Section Def.
Context {RT : PyRuntime}.

(** [@dataclass(frozen=True, order=True, kw_only=True) class VasilievData] *)
Record t : Type := make {
  name : string;
  RA : pyval;
  DEC : pyval;
  distance : pyval;
  losv : pyval;
  err_losv : pyval;
  pm_RA : pyval;
  pm_DEC : pyval;
  err_pm_RA : pyval;
  err_pm_DEC : pyval;
  correlation : pyval;
  rh : pyval;
  N_stars : pyval
}.

End Def.
End VasilievData.

Module ParametersGC.
Section Def.
Context {RT : PyRuntime}.

(** [@dataclass class ParametersGC], the same in both files *)
Record t : Type := make {
  name : string;
  PM_plot_x_axis_min : pyval;
  PM_plot_x_axis_max : pyval;
  PM_plot_y_axis_min : pyval;
  PM_plot_y_axis_max : pyval;
  width_minim : pyval;
  width_maxim : pyval;
  width_nstep : pyval;
  height_minim : pyval;
  height_maxim : pyval;
  height_nstep : pyval;
  incl_minim : pyval;
  incl_maxim : pyval;
  incl_nstep : pyval
}.

(** [ParametersGC()]: every field at its default *)
Definition default : t :=
  make "" (PyFloat float_zero) (PyFloat float_zero) (PyFloat float_zero)
       (PyFloat float_zero) (PyFloat float_zero) (PyFloat float_zero)
       (PyInt 0) (PyFloat float_zero) (PyFloat float_zero) (PyInt 0)
       (PyFloat float_zero) (PyFloat float_zero) (PyInt 0).

End Def.
End ParametersGC.

Section Lists.
Context {RT : PyRuntime}.

(** [@dataclass class VasilievList] *)
Record VasilievList : Type := mkVasilievList {
  data : list VasilievData.t
}.

(** [@dataclass class ParametersList(JSONWizard)] *)
Record ParametersList : Type := mkParametersList {
  globular_cluster : list ParametersGC.t
}.

End Lists.

(** [json.loads] and [ParametersList.from_dict] of dataclass-wizard. *)
Class JsonWizard {RT : PyRuntime} : Type := {
  json : Type;
  json_loads : string -> result json;
  from_dict : json -> result ParametersList
}.

(** ** Parameters.py *)

Module Parameters.
Section Code.
Context {RT : PyRuntime} {JW : JsonWizard}.

(** The loop of [get_GC_params]: one record per tuple of the zip, appended
    to [data_vasiliev.data]. *)
Definition append_record (data_vasiliev : VasilievList)
    (tuple : string * (pyfloat * (pyfloat * (pyfloat * (pyfloat * (pyfloat
             * (pyfloat * (pyfloat * (pyfloat * (pyfloat * (pyfloat
             * (pyfloat * Z)))))))))))) : VasilievList :=
  let '(name_it, (ra, (dec, (d, (hr, (ehr, (pmra, (pmdec, (epmra, (epmdec,
        (c, (rh_it, n)))))))))))) := tuple in
  let data' :=
    VasilievData.make name_it (PyFloat ra) (PyFloat dec) (PyFloat d)
      (PyFloat hr) (PyFloat ehr) (PyFloat pmra) (PyFloat pmdec)
      (PyFloat epmra) (PyFloat epmdec) (PyFloat c) (PyFloat rh_it) (PyInt n) in
  mkVasilievList (data data_vasiliev ++ [data']).

Definition get_GC_params (fs : filesystem) (fname : string) : result VasilievList :=
  cols <- np.loadtxt fs fname ;;
  let '(gc_names, gc_ra, gc_dec, dist, hrv, e_hrv, pmRA, pmDEC, e_pmRA,
        e_pmDEC, corr, gc_rh, n_stars) := cols in
  (* zip(...) asks each argument for its iterator, from left to right *)
  i1 <- np.iter gc_names ;;
  i2 <- np.iter gc_ra ;;
  i3 <- np.iter gc_dec ;;
  i4 <- np.iter dist ;;
  i5 <- np.iter hrv ;;
  i6 <- np.iter e_hrv ;;
  i7 <- np.iter pmRA ;;
  i8 <- np.iter pmDEC ;;
  i9 <- np.iter e_pmRA ;;
  i10 <- np.iter e_pmDEC ;;
  i11 <- np.iter corr ;;
  i12 <- np.iter gc_rh ;;
  i13 <- np.iter n_stars ;;
  let zipped :=
    combine i1 (combine i2 (combine i3 (combine i4 (combine i5 (combine i6
    (combine i7 (combine i8 (combine i9 (combine i10 (combine i11
    (combine i12 i13))))))))))) in
  Ok (fold_left append_record zipped (mkVasilievList [])).

(** The record returned when no cluster has the name. *)
Definition not_found : VasilievData.t :=
  VasilievData.make "" (PyFloat float_zero) (PyFloat float_zero)
    (PyFloat float_zero) (PyFloat float_zero) (PyFloat float_zero)
    (PyFloat float_zero) (PyFloat float_zero) (PyInt 0) (PyFloat float_zero)
    (PyInt 0) (PyFloat float_zero) (PyInt 0).

(** The body of the [try] of [get_selected_GC]. *)
Fixpoint try_body (obj_name : string) (items : list VasilievData.t)
    : result (VasilievData.t * bool) :=
  match items with
  | [] => Err ClusterNotFound
  | item :: rest =>
      if String.eqb (upper (VasilievData.name item)) (upper obj_name)
      then Ok (item, true)
      else try_body obj_name rest
  end.

(** [get_selected_GC] returns its value, or the exception that leaves it,
    and the lines it prints. *)
Definition get_selected_GC (obj_name : string) (data_listed : VasilievList)
    : result (VasilievData.t * bool) * list string :=
  match try_body obj_name (data data_listed) with
  | Err ClusterNotFound =>
      (Ok (not_found, false),
       [(repr obj_name ++ " object not found in Globular Cluster list!")%string;
        "You will have to add coordinates manually in the next cell.";
        ""])
  | r => (r, [])
  end.

(** [ParametersGC(name=item.name, PM_plot_x_axis_min=float(...), ...)]:
    the arguments are evaluated in the order they are written. *)
Definition cluster_found (item : ParametersGC.t) : result ParametersGC.t :=
  a1 <- float_ (ParametersGC.PM_plot_x_axis_min item) ;;
  a2 <- float_ (ParametersGC.PM_plot_x_axis_max item) ;;
  a3 <- float_ (ParametersGC.PM_plot_y_axis_min item) ;;
  a4 <- float_ (ParametersGC.PM_plot_y_axis_max item) ;;
  a5 <- float_ (ParametersGC.width_minim item) ;;
  a6 <- float_ (ParametersGC.width_maxim item) ;;
  a7 <- int_ (ParametersGC.width_nstep item) ;;
  a8 <- float_ (ParametersGC.height_minim item) ;;
  a9 <- float_ (ParametersGC.height_maxim item) ;;
  a10 <- int_ (ParametersGC.height_nstep item) ;;
  a11 <- float_ (ParametersGC.incl_minim item) ;;
  a12 <- float_ (ParametersGC.incl_maxim item) ;;
  a13 <- int_ (ParametersGC.incl_nstep item) ;;
  Ok (ParametersGC.make (ParametersGC.name item)
        a1 a2 a3 a4 a5 a6 a7 a8 a9 a10 a11 a12 a13).

(** The [for] loop of [isInJSONParametersFile] and the [return] after it. *)
Fixpoint for_item (object_name : string) (items : list ParametersGC.t)
    : result (ParametersGC.t * bool) :=
  match items with
  | [] => Ok (ParametersGC.default, false)
  | item :: rest =>
      if String.eqb (upper (ParametersGC.name item)) (upper object_name)
      then found <- cluster_found item ;; Ok (found, true)
      else for_item object_name rest
  end.

Definition isInJSONParametersFile (fs : filesystem)
    (filename_json object_name : string) : result (ParametersGC.t * bool) :=
  text <- read_text fs filename_json ;;
  data_json <- json_loads text ;;
  object_json <- from_dict data_json ;;
  for_item object_name (globular_cluster object_json).

End Code.
End Parameters.

(** ** Parameters_JSON.py *)

Module Parameters_JSON.
Section Code.
Context {RT : PyRuntime} {JW : JsonWizard}.

(** The names bound at the top level of the module.  [object_name] is
    not one of them, nor a parameter or a local of the function, nor a
    builtin. *)
Definition module_globals : list (string * pyval) :=
  [("dataclass", PyObject); ("JSONWizard", PyObject); ("json", PyObject);
   ("ParametersList", PyObject); ("ParametersGC", PyObject);
   ("isInJSONParametersFile", PyObject)].

(** Reading a name that is not local to the function. *)
Definition load_global (id : string) : result pyval :=
  match find (fun b => String.eqb (fst b) id) module_globals with
  | Some b => Ok (snd b)
  | None => Err NameError
  end.

(** The [for] loop: the left operand of [==] is evaluated, then
    [object_name] is looked up. *)
Fixpoint for_item (items : list ParametersGC.t) : result (ParametersGC.t * bool) :=
  match items with
  | [] => Ok (ParametersGC.default, false)
  | item :: rest =>
      let lhs := upper (ParametersGC.name item) in
      object_name <- load_global "object_name" ;;
      rhs <- upper_method object_name ;;
      if String.eqb lhs rhs
      then found <- Parameters.cluster_found item ;; Ok (found, true)
      else for_item rest
  end.

Definition isInJSONParametersFile (fs : filesystem) (filename_json : string)
    : result (ParametersGC.t * bool) :=
  text <- read_text fs filename_json ;;
  data_json <- json_loads text ;;
  object_json <- from_dict data_json ;;
  for_item (globular_cluster object_json).

End Code.
End Parameters_JSON.

(** ** Vocabulary of the properties *)

Section Vocabulary.
Context {RT : PyRuntime}.

(** Column [k] (from 1 to 12) of the dtype accepts the field. *)
Definition numeric_ok (k : nat) (tok : string) : bool :=
  if (k =? 12)%nat
  then match np_int tok with Some _ => true | None => false end
  else match np_float tok with Some _ => true | None => false end.

(** A data row that loadtxt cannot convert: it has not 13 fields, or one
    of its numeric columns does not hold a number. *)
Definition malformed (toks : list string) : Prop :=
  length toks <> 13%nat
  \/ exists k tok, (1 <= k <= 12)%nat /\ nth_error toks k = Some tok
                   /\ numeric_ok k tok = false.

Definition wellformed (toks : list string) : Prop :=
  length toks = 13%nat
  /\ forall k tok, (1 <= k <= 12)%nat -> nth_error toks k = Some tok ->
                   numeric_ok k tok = true.

(** [wellformed], as a test. *)
Definition wellformedb (toks : list string) : bool :=
  (length toks =? 13)%nat
  && forallb (fun k => match nth_error toks k with
                       | Some tok => numeric_ok k tok
                       | None => false
                       end) (seq 1 12).


(** The record that holds the values of a converted row. *)
Definition record_of_row (r : np.row) : VasilievData.t :=
  VasilievData.make (np.name r) (PyFloat (np.ra r)) (PyFloat (np.dec r))
    (PyFloat (np.dist r)) (PyFloat (np.hrv r)) (PyFloat (np.err_hrv r))
    (PyFloat (np.pmRA r)) (PyFloat (np.pmDEC r)) (PyFloat (np.err_pmRA r))
    (PyFloat (np.err_pmDEC r)) (PyFloat (np.corr r)) (PyFloat (np.r_h r))
    (PyInt (np.N_stars r)).

(** The tuple that the zip of the thirteen columns yields for a row. *)
Definition tuple_of_row (r : np.row) :=
  (np.name r, (np.ra r, (np.dec r, (np.dist r, (np.hrv r, (np.err_hrv r,
   (np.pmRA r, (np.pmDEC r, (np.err_pmRA r, (np.err_pmDEC r, (np.corr r,
   (np.r_h r, np.N_stars r)))))))))))).

(** A cluster record with an empty name and every numeric field zero. *)
Definition zero_cluster (r : VasilievData.t) : Prop :=
  VasilievData.name r = ""
  /\ is_zero (VasilievData.RA r) /\ is_zero (VasilievData.DEC r)
  /\ is_zero (VasilievData.distance r) /\ is_zero (VasilievData.losv r)
  /\ is_zero (VasilievData.err_losv r) /\ is_zero (VasilievData.pm_RA r)
  /\ is_zero (VasilievData.pm_DEC r) /\ is_zero (VasilievData.err_pm_RA r)
  /\ is_zero (VasilievData.err_pm_DEC r) /\ is_zero (VasilievData.correlation r)
  /\ is_zero (VasilievData.rh r) /\ is_zero (VasilievData.N_stars r).

(** A parameter record with an empty name and every numeric field zero. *)
Definition zero_parameters (p : ParametersGC.t) : Prop :=
  ParametersGC.name p = ""
  /\ is_zero (ParametersGC.PM_plot_x_axis_min p)
  /\ is_zero (ParametersGC.PM_plot_x_axis_max p)
  /\ is_zero (ParametersGC.PM_plot_y_axis_min p)
  /\ is_zero (ParametersGC.PM_plot_y_axis_max p)
  /\ is_zero (ParametersGC.width_minim p) /\ is_zero (ParametersGC.width_maxim p)
  /\ is_zero (ParametersGC.width_nstep p)
  /\ is_zero (ParametersGC.height_minim p) /\ is_zero (ParametersGC.height_maxim p)
  /\ is_zero (ParametersGC.height_nstep p)
  /\ is_zero (ParametersGC.incl_minim p) /\ is_zero (ParametersGC.incl_maxim p)
  /\ is_zero (ParametersGC.incl_nstep p).

(** The name of the record matches the query, the way both lookups
    compare them. *)
Definition cluster_matches (q : string) (r : VasilievData.t) : Prop :=
  upper (VasilievData.name r) = upper q.

Definition parameters_match (q : string) (p : ParametersGC.t) : Prop :=
  upper (ParametersGC.name p) = upper q.

(** The fields of a parameter record have their declared types: a float
    where the class says float, an int where it says int. *)
Definition is_float (v : pyval) : Prop := exists x, v = PyFloat x.
Definition is_int (v : pyval) : Prop := exists n, v = PyInt n.

Definition declared_types (p : ParametersGC.t) : Prop :=
  is_float (ParametersGC.PM_plot_x_axis_min p)
  /\ is_float (ParametersGC.PM_plot_x_axis_max p)
  /\ is_float (ParametersGC.PM_plot_y_axis_min p)
  /\ is_float (ParametersGC.PM_plot_y_axis_max p)
  /\ is_float (ParametersGC.width_minim p) /\ is_float (ParametersGC.width_maxim p)
  /\ is_int (ParametersGC.width_nstep p)
  /\ is_float (ParametersGC.height_minim p) /\ is_float (ParametersGC.height_maxim p)
  /\ is_int (ParametersGC.height_nstep p)
  /\ is_float (ParametersGC.incl_minim p) /\ is_float (ParametersGC.incl_maxim p)
  /\ is_int (ParametersGC.incl_nstep p).

(** [found] is [item] with every numeric field passed through the
    constructor of its declared type. *)
Definition coerced (item found : ParametersGC.t) : Prop :=
  ParametersGC.name found = ParametersGC.name item
  /\ float_ (ParametersGC.PM_plot_x_axis_min item) = Ok (ParametersGC.PM_plot_x_axis_min found)
  /\ float_ (ParametersGC.PM_plot_x_axis_max item) = Ok (ParametersGC.PM_plot_x_axis_max found)
  /\ float_ (ParametersGC.PM_plot_y_axis_min item) = Ok (ParametersGC.PM_plot_y_axis_min found)
  /\ float_ (ParametersGC.PM_plot_y_axis_max item) = Ok (ParametersGC.PM_plot_y_axis_max found)
  /\ float_ (ParametersGC.width_minim item) = Ok (ParametersGC.width_minim found)
  /\ float_ (ParametersGC.width_maxim item) = Ok (ParametersGC.width_maxim found)
  /\ int_ (ParametersGC.width_nstep item) = Ok (ParametersGC.width_nstep found)
  /\ float_ (ParametersGC.height_minim item) = Ok (ParametersGC.height_minim found)
  /\ float_ (ParametersGC.height_maxim item) = Ok (ParametersGC.height_maxim found)
  /\ int_ (ParametersGC.height_nstep item) = Ok (ParametersGC.height_nstep found)
  /\ float_ (ParametersGC.incl_minim item) = Ok (ParametersGC.incl_minim found)
  /\ float_ (ParametersGC.incl_maxim item) = Ok (ParametersGC.incl_maxim found)
  /\ int_ (ParametersGC.incl_nstep item) = Ok (ParametersGC.incl_nstep found).

End Vocabulary.

(** The exceptions that [float()] and [int()] can raise. *)
Definition coercion_error (e : exception) : Prop :=
  e = TypeError \/ e = OverflowError \/ e = ValueError None.

(** A line that holds no data: only white space up to its end or up to
    a comment. *)
Fixpoint blank_or_comment (line : string) : bool :=
  match line with
  | EmptyString => true
  | String c rest =>
      if Ascii.eqb c hash then true
      else if is_space c then blank_or_comment rest
      else false
  end.

(** ** Vocabulary of the further properties *)

(** The string [LF], a line end. *)
Definition newline : string := String LF EmptyString.

(** No character of the string ends a line. *)
Fixpoint no_newline (s : string) : bool :=
  match s with
  | EmptyString => true
  | String c s' => negb (is_newline c) && no_newline s'
  end.

(** The string holds no comment character. *)
Fixpoint no_hash (s : string) : bool :=
  match s with
  | EmptyString => true
  | String c s' => negb (Ascii.eqb c hash) && no_hash s'
  end.

Fixpoint plain_chars (s : string) : bool :=
  match s with
  | EmptyString => true
  | String c s' => negb (is_space c) && negb (Ascii.eqb c hash) && plain_chars s'
  end.

(** A field as it can stand in a catalogue file: not empty, free of white
    space, of line ends and of the comment character. *)
Definition plain_field (s : string) : bool :=
  match s with
  | EmptyString => false
  | _ => plain_chars s
  end.

(** [" ".join(fields)] *)
Fixpoint join (fields : list string) : string :=
  match fields with
  | [] => EmptyString
  | [f] => f
  | f :: rest => f ++ String (ascii_of_nat 32) (join rest)
  end.

(** A catalogue text written from its rows: the fields of a row on one
    line, a blank between two fields. *)
Fixpoint render (rows : list (list string)) : string :=
  match rows with
  | [] => EmptyString
  | r :: rest => join r ++ String LF (render rest)
  end.

(** The rows that one line contributes: its fields, if it has any. *)
Definition rows_of_line (line : string) : list (list string) :=
  match split (strip_comment line) with
  | [] => []
  | toks => [toks]
  end.

(** ** A runtime for the examples

    Numbers are exact rationals and the literal parsers read plain decimal
    notation: an optional sign, digits, an optional fraction.  The JSON
    side is a table from the texts of known documents to what they decode
    to. *)

Module Fixture.

Definition digit (c : ascii) : option Z :=
  let n := nat_of_ascii c in
  if ((48 <=? n) && (n <=? 57))%nat then Some (Z.of_nat (n - 48)) else None.

Fixpoint digits (acc : Z) (s : string) : option Z :=
  match s with
  | EmptyString => Some acc
  | String c s' =>
      match digit c with
      | Some d => digits (10 * acc + d) s'
      | None => None
      end
  end.

Definition signed {A : Type} (neg : A -> A) (lit : string -> option A)
    (s : string) : option A :=
  match s with
  | EmptyString => None
  | String c s' =>
      if Ascii.eqb c (ascii_of_nat 45)
      then match s' with
           | EmptyString => None
           | _ => option_map neg (lit s')
           end
      else lit s
  end.

Definition int_literal : string -> option Z := signed Z.opp (digits 0).

Fixpoint decimal (acc : Z) (scale : option positive) (s : string) : option Q :=
  match s with
  | EmptyString =>
      Some (Qred (Qmake acc (match scale with Some p => p | None => 1%positive end)))
  | String c s' =>
      if Ascii.eqb c (ascii_of_nat 46)
      then match scale with
           | None => decimal acc (Some 1%positive) s'
           | Some _ => None
           end
      else match digit c with
           | Some d => decimal (10 * acc + d) (option_map (Pos.mul 10) scale) s'
           | None => None
           end
  end.

Definition float_literal : string -> option Q := signed Qopp (decimal 0 None).

Definition quoted (s : string) : string := ("'" ++ s ++ "'")%string.

#[export] Instance runtime : PyRuntime := {|
  pyfloat := Q;
  float_zero := Qmake 0 1;
  float_of_str := float_literal;
  int_of_str := int_literal;
  float_of_int := fun n => Some (inject_Z n);
  float_trunc := fun x => Some (Z.quot (Qnum x) (Zpos (Qden x)));
  float_is_nan := fun _ => false;
  np_float := float_literal;
  np_int := int_literal;
  repr := quoted
|}.

(** The decoders that know the documents of [docs] and no other text. *)
Definition wizard (docs : list (string * ParametersList)) : JsonWizard := {|
  json := ParametersList;
  json_loads := fun text =>
    match find (fun d => String.eqb (fst d) text) docs with
    | Some d => Ok (snd d)
    | None => Err JSONDecodeError
    end;
  from_dict := fun j => Ok j
|}.

(** A file system with one file. *)
Definition one_file (path text : string) : filesystem :=
  fun p => if String.eqb p path then Some text else None.

Definition nl : string := String LF EmptyString.

(** Three catalogue texts: two rows, one row, and no row at all. *)
Definition two_rows : string :=
  "# name ra dec dist hrv e_hrv pmra pmdec e_pmra e_pmdec corr rh n" ++ nl ++
  "NGC104 6.024 -72.081 4.5 -17.2 0.2 5.25 -2.53 0.01 0.01 -0.02 18.3 23918" ++ nl ++
  "" ++ nl ++
  "ngc104 1.0 2.0 3.0 4.0 5.0 6.0 7.0 8.0 9.0 10.0 11.0 12  # again" ++ nl.

Definition one_row : string :=
  "# name ra dec dist hrv e_hrv pmra pmdec e_pmra e_pmdec corr rh n" ++ nl ++
  "NGC104 6.024 -72.081 4.5 -17.2 0.2 5.25 -2.53 0.01 0.01 -0.02 18.3 23918" ++ nl.

Definition no_row : string :=
  "# Vasiliev (2019)" ++ nl ++ "   " ++ nl ++ "  # nothing yet" ++ nl.

(** A text whose second row has twelve fields, and one whose second row
    has a word in a numeric column. *)
Definition short_row : string :=
  "NGC104 6.024 -72.081 4.5 -17.2 0.2 5.25 -2.53 0.01 0.01 -0.02 18.3 23918" ++ nl ++
  "NGC288 13.188 -26.583 8.9 -44.8 0.1 4.22 -5.65 0.01 0.01 0.01 5" ++ nl ++
  "NGC362 15.809 -70.849 8.6 223.3 0.3 6.71 -2.51 0.01 0.01 -0.01 9.4 1741" ++ nl.

Definition word_row : string :=
  "NGC104 6.024 -72.081 4.5 -17.2 0.2 5.25 -2.53 0.01 0.01 -0.02 18.3 23918" ++ nl ++
  "NGC288 13.188 south 8.9 -44.8 0.1 4.22 -5.65 0.01 0.01 0.01 5.1 77" ++ nl.

(** A parameter document with one record; its [width_minim] arrives as
    the string 1.5. *)
Definition omega_cen : ParametersGC.t :=
  ParametersGC.make "NGC5139" (PyFloat (Qmake (-8) 1)) (PyFloat (Qmake 2 1))
    (PyFloat (Qmake (-12) 1)) (PyInt 0) (PyStr "1.5") (PyFloat (Qmake 5 2))
    (PyInt 20) (PyFloat (Qmake 1 2)) (PyInt 3) (PyStr "15")
    (PyBool false) (PyFloat (Qmake 90 1)) (PyFloat (Qmake 10 1)).

(** What the lookup returns for it. *)
Definition omega_cen_found : ParametersGC.t :=
  ParametersGC.make "NGC5139" (PyFloat (Qmake (-8) 1)) (PyFloat (Qmake 2 1))
    (PyFloat (Qmake (-12) 1)) (PyFloat (Qmake 0 1)) (PyFloat (Qmake 3 2))
    (PyFloat (Qmake 5 2)) (PyInt 20) (PyFloat (Qmake 1 2)) (PyFloat (Qmake 3 1))
    (PyInt 15) (PyFloat (Qmake 0 1)) (PyFloat (Qmake 90 1)) (PyInt 10).

(** The catalogue of [two_rows]. *)
Definition tucanae : VasilievData.t :=
  VasilievData.make "NGC104" (PyFloat (Qmake 753 125))
    (PyFloat (Qmake (-72081) 1000)) (PyFloat (Qmake 9 2))
    (PyFloat (Qmake (-86) 5)) (PyFloat (Qmake 1 5)) (PyFloat (Qmake 21 4))
    (PyFloat (Qmake (-253) 100)) (PyFloat (Qmake 1 100)) (PyFloat (Qmake 1 100))
    (PyFloat (Qmake (-1) 50)) (PyFloat (Qmake 183 10)) (PyInt 23918).

Definition tucanae_again : VasilievData.t :=
  VasilievData.make "ngc104" (PyFloat (Qmake 1 1)) (PyFloat (Qmake 2 1))
    (PyFloat (Qmake 3 1)) (PyFloat (Qmake 4 1)) (PyFloat (Qmake 5 1))
    (PyFloat (Qmake 6 1)) (PyFloat (Qmake 7 1)) (PyFloat (Qmake 8 1))
    (PyFloat (Qmake 9 1)) (PyFloat (Qmake 10 1)) (PyFloat (Qmake 11 1))
    (PyInt 12).

Definition catalog : VasilievList := mkVasilievList [tucanae; tucanae_again].

Definition store_text : string := "{ globular_cluster: [ NGC5139 ] }".

Definition store : JsonWizard :=
  wizard [(store_text, mkParametersList [omega_cen])].


(** A row with the name [n] and the numbers from 1 to 12: its fields,
    its line and its record. *)
Definition fields (n : string) : list string :=
  [n; "1"; "2"; "3"; "4"; "5"; "6"; "7"; "8"; "9"; "10"; "11"; "12"].

Definition line (n : string) : string :=
  (n ++ " 1 2 3 4 5 6 7 8 9 10 11 12")%string.






Definition typed_store : JsonWizard :=
  wizard [(store_text, mkParametersList [omega_cen_found])].


End Fixture.

(** * Properties *)

(** ** Letter case *)

Lemma ascii_code_inj (c d : ascii) : nat_of_ascii c = nat_of_ascii d -> c = d.
Proof.
  intros E. rewrite <- (ascii_nat_embedding c), <- (ascii_nat_embedding d), E.
  reflexivity.
Qed.

Lemma is_lower_code (c : ascii) :
  is_lower c = true <-> (97 <= nat_of_ascii c <= 122)%nat.
Proof.
  unfold is_lower. rewrite andb_true_iff, !Nat.leb_le. tauto.
Qed.

Lemma is_upper_code (c : ascii) :
  is_upper c = true <-> (65 <= nat_of_ascii c <= 90)%nat.
Proof.
  unfold is_upper. rewrite andb_true_iff, !Nat.leb_le. tauto.
Qed.

Lemma to_upper_code (c : ascii) :
  nat_of_ascii (to_upper c)
  = if is_lower c then (nat_of_ascii c - 32)%nat else nat_of_ascii c.
Proof.
  unfold to_upper. destruct (is_lower c) eqn:E; [|reflexivity].
  apply is_lower_code in E. apply nat_ascii_embedding. lia.
Qed.

Lemma to_lower_code (c : ascii) :
  nat_of_ascii (to_lower c)
  = if is_upper c then (nat_of_ascii c + 32)%nat else nat_of_ascii c.
Proof.
  unfold to_lower. destruct (is_upper c) eqn:E; [|reflexivity].
  apply is_upper_code in E. apply nat_ascii_embedding. lia.
Qed.

Lemma ascii_eqb_code (c d : ascii) :
  Ascii.eqb c d = (nat_of_ascii c =? nat_of_ascii d)%nat.
Proof.
  destruct (Ascii.eqb_spec c d) as [->|N].
  - symmetry. apply Nat.eqb_refl.
  - symmetry. apply Nat.eqb_neq. intros E. apply N, ascii_code_inj, E.
Qed.

Lemma same_letter_spec (c d : ascii) :
  same_letter c d = Ascii.eqb (to_upper c) (to_upper d).
Proof.
  unfold same_letter.
  rewrite !ascii_eqb_code, !to_upper_code, to_lower_code.
  destruct (is_lower c) eqn:Lc, (is_upper c) eqn:Uc, (is_lower d) eqn:Ld;
    try apply is_lower_code in Lc; try apply is_upper_code in Uc;
    try apply is_lower_code in Ld;
    try (apply not_true_iff_false in Lc; rewrite is_lower_code in Lc);
    try (apply not_true_iff_false in Uc; rewrite is_upper_code in Uc);
    try (apply not_true_iff_false in Ld; rewrite is_lower_code in Ld);
    simpl; rewrite ?orb_false_r;
    repeat match goal with
           | |- context [(?a =? ?b)%nat] => destruct (Nat.eqb_spec a b)
           end;
    simpl; try reflexivity; lia.
Qed.

Lemma case_variant_upper (s t : string) :
  case_variant s t = true <-> upper s = upper t.
Proof.
  revert t. induction s as [|c s IH]; intros [|d t]; simpl;
    try (split; [discriminate | discriminate]); try tauto.
  rewrite andb_true_iff, same_letter_spec, Ascii.eqb_eq, IH.
  split.
  - intros [-> ->]. reflexivity.
  - intros E. injection E as E1 E2. auto.
Qed.

Lemma to_upper_idem (c : ascii) : to_upper (to_upper c) = to_upper c.
Proof.
  apply ascii_code_inj. rewrite (to_upper_code (to_upper c)).
  destruct (is_lower (to_upper c)) eqn:L; [|reflexivity].
  apply is_lower_code in L. rewrite to_upper_code in L |- *.
  destruct (is_lower c) eqn:Lc; [apply is_lower_code in Lc|]; try lia.
  apply not_true_iff_false in Lc. rewrite is_lower_code in Lc. lia.
Qed.

Lemma upper_idem (s : string) : upper (upper s) = upper s.
Proof.
  induction s as [|c s IH]; simpl; [reflexivity|].
  rewrite to_upper_idem, IH. reflexivity.
Qed.

(** The upper case form of a string is one of its case variants. *)
Lemma case_variant_upper_self (s : string) : case_variant s (upper s) = true.
Proof. apply case_variant_upper. symmetry. apply upper_idem. Qed.

(** ** The error monad *)

Lemma bind_inv_ok {A B : Type} (m : result A) (k : A -> result B) (b : B) :
  bind m k = Ok b -> exists a, m = Ok a /\ k a = Ok b.
Proof. destruct m as [a|e]; simpl; [eauto | discriminate]. Qed.

Ltac inv_bind H :=
  let a := fresh "a" in
  let Ha := fresh "Ha" in
  apply bind_inv_ok in H; destruct H as (a & Ha & H).

(** ** The catalogue lookup *)

Section CatalogLookup.
Context {RT : PyRuntime}.

Lemma try_body_hit (q : string) (pre post : list VasilievData.t)
    (item : VasilievData.t) :
  Forall (fun r => ~ cluster_matches q r) pre ->
  cluster_matches q item ->
  Parameters.try_body q (pre ++ item :: post) = Ok (item, true).
Proof.
  unfold cluster_matches. intros Hpre Hit.
  induction Hpre as [|r pre Hr _ IH]; simpl.
  - apply String.eqb_eq in Hit. rewrite Hit. reflexivity.
  - apply String.eqb_neq in Hr. rewrite Hr. exact IH.
Qed.

Lemma try_body_miss (q : string) (items : list VasilievData.t) :
  Forall (fun r => ~ cluster_matches q r) items ->
  Parameters.try_body q items = Err ClusterNotFound.
Proof.
  unfold cluster_matches.
  induction 1 as [|r items Hr _ IH]; simpl; [reflexivity|].
  apply String.eqb_neq in Hr. rewrite Hr. exact IH.
Qed.

(** The scan either stops at the first record that matches or runs off
    the end of the list. *)
Lemma try_body_cases (q : string) (items : list VasilievData.t) :
  (exists pre item post,
      items = pre ++ item :: post
      /\ Forall (fun r => ~ cluster_matches q r) pre
      /\ cluster_matches q item
      /\ Parameters.try_body q items = Ok (item, true))
  \/ (Forall (fun r => ~ cluster_matches q r) items
      /\ Parameters.try_body q items = Err ClusterNotFound).
Proof.
  induction items as [|r items IH].
  - right. split; [constructor | reflexivity].
  - destruct (String.eqb_spec (upper (VasilievData.name r)) (upper q)) as [E|E].
    + left. exists [], r, items. simpl.
      apply String.eqb_eq in E. rewrite E. apply String.eqb_eq in E.
      repeat split; auto.
    + destruct IH as [(pre & item & post & -> & Hpre & Hit & Hres) | [Hall Hres]].
      * left. exists (r :: pre), item, post. simpl.
        apply String.eqb_neq in E. rewrite E. apply String.eqb_neq in E.
        repeat split; auto.
      * right. simpl.
        apply String.eqb_neq in E. rewrite E. apply String.eqb_neq in E.
        split; auto.
Qed.

Lemma try_body_upper (q1 q2 : string) (items : list VasilievData.t) :
  upper q1 = upper q2 ->
  Parameters.try_body q1 items = Parameters.try_body q2 items.
Proof.
  intros E. induction items as [|r items IH]; simpl; [reflexivity|].
  rewrite E, IH. reflexivity.
Qed.

Lemma get_selected_GC_hit (q : string) (pre post : list VasilievData.t)
    (item : VasilievData.t) :
  Forall (fun r => ~ cluster_matches q r) pre ->
  cluster_matches q item ->
  Parameters.get_selected_GC q (mkVasilievList (pre ++ item :: post))
  = (Ok (item, true), []).
Proof.
  intros Hpre Hit. unfold Parameters.get_selected_GC. simpl.
  rewrite (try_body_hit post Hpre Hit). reflexivity.
Qed.

Lemma get_selected_GC_miss (q : string) (cat : VasilievList) :
  Forall (fun r => ~ cluster_matches q r) (data cat) ->
  Parameters.get_selected_GC q cat
  = (Ok (Parameters.not_found, false),
     [(repr q ++ " object not found in Globular Cluster list!")%string;
      "You will have to add coordinates manually in the next cell.";
      ""]).
Proof.
  intros H. unfold Parameters.get_selected_GC.
  rewrite (try_body_miss H). reflexivity.
Qed.

(** [get_selected_GC] raises nothing: the only exception of its [try]
    is the one it catches. *)
Lemma get_selected_GC_returns (q : string) (cat : VasilievList) :
  exists r b, fst (Parameters.get_selected_GC q cat) = Ok (r, b).
Proof.
  unfold Parameters.get_selected_GC.
  destruct (try_body_cases q (data cat))
    as [(pre & item & post & _ & _ & _ & ->) | [_ ->]]; simpl; eauto.
Qed.

Lemma not_found_zero : zero_cluster Parameters.not_found.
Proof. unfold zero_cluster, is_zero. simpl. tauto. Qed.

End CatalogLookup.

(** ** The parameter lookup *)

Section StoreLookup.
Context {RT : PyRuntime} {JW : JsonWizard}.

Lemma for_item_hit (q : string) (pre post : list ParametersGC.t)
    (item : ParametersGC.t) :
  Forall (fun p => ~ parameters_match q p) pre ->
  parameters_match q item ->
  Parameters.for_item q (pre ++ item :: post)
  = (found <- Parameters.cluster_found item ;; Ok (found, true)).
Proof.
  unfold parameters_match. intros Hpre Hit.
  induction Hpre as [|p pre Hp _ IH]; simpl.
  - apply String.eqb_eq in Hit. rewrite Hit. reflexivity.
  - apply String.eqb_neq in Hp. rewrite Hp. exact IH.
Qed.

Lemma for_item_miss (q : string) (items : list ParametersGC.t) :
  Forall (fun p => ~ parameters_match q p) items ->
  Parameters.for_item q items = Ok (ParametersGC.default, false).
Proof.
  unfold parameters_match.
  induction 1 as [|p items Hp _ IH]; simpl; [reflexivity|].
  apply String.eqb_neq in Hp. rewrite Hp. exact IH.
Qed.

Lemma for_item_upper (q1 q2 : string) (items : list ParametersGC.t) :
  upper q1 = upper q2 ->
  Parameters.for_item q1 items = Parameters.for_item q2 items.
Proof.
  intros E. induction items as [|p items IH]; simpl; [reflexivity|].
  rewrite E, IH. reflexivity.
Qed.

Lemma default_zero : zero_parameters ParametersGC.default.
Proof. unfold zero_parameters, is_zero. simpl. tauto. Qed.

(** Loading a document that decodes. *)
Lemma isInJSONParametersFile_loaded (fs : filesystem) (path text q : string)
    (j : json) (doc : ParametersList) :
  fs path = Some text -> json_loads text = Ok j -> from_dict j = Ok doc ->
  Parameters.isInJSONParametersFile fs path q
  = Parameters.for_item q (globular_cluster doc).
Proof.
  intros Hfs Hj Hd. unfold Parameters.isInJSONParametersFile, read_text.
  rewrite Hfs. simpl. rewrite Hj. simpl. rewrite Hd. reflexivity.
Qed.

Lemma float_error (v : pyval) (e : exception) :
  float_ v = Err e -> coercion_error e.
Proof.
  unfold coercion_error.
  destruct v as [| b | n | x | s |]; simpl;
    repeat match goal with
           | |- context [or_raise ?o _] => destruct o; simpl
           end;
    try discriminate; intros [= <-]; auto.
Qed.

Lemma int_error (v : pyval) (e : exception) :
  int_ v = Err e -> coercion_error e.
Proof.
  unfold coercion_error.
  destruct v as [| b | n | x | s |]; simpl;
    repeat match goal with
           | |- context [or_raise ?o _] => destruct o; simpl
           | |- context [float_trunc ?x] => destruct (float_trunc x)
           | |- context [float_is_nan ?x] => destruct (float_is_nan x)
           end;
    try discriminate; intros [= <-]; auto.
Qed.

End StoreLookup.

(** ** The loader *)

Section Loader.
Context {RT : PyRuntime}.

Lemma combine_map {A B C : Type} (f : A -> B) (g : A -> C) (l : list A) :
  combine (map f l) (map g l) = map (fun a => (f a, g a)) l.
Proof. induction l as [|a l IH]; simpl; [|rewrite IH]; reflexivity. Qed.

Lemma zip_columns (rows : list np.row) :
  combine (map np.name rows) (combine (map np.ra rows) (combine (map np.dec rows)
  (combine (map np.dist rows) (combine (map np.hrv rows)
  (combine (map np.err_hrv rows) (combine (map np.pmRA rows)
  (combine (map np.pmDEC rows) (combine (map np.err_pmRA rows)
  (combine (map np.err_pmDEC rows) (combine (map np.corr rows)
  (combine (map np.r_h rows) (map np.N_stars rows))))))))))))
  = map tuple_of_row rows.
Proof.
  induction rows as [|r rows IH]; simpl; [reflexivity|].
  rewrite IH. reflexivity.
Qed.

Lemma append_record_row (acc : VasilievList) (r : np.row) :
  Parameters.append_record acc (tuple_of_row r)
  = mkVasilievList (data acc ++ [record_of_row r]).
Proof. reflexivity. Qed.

Lemma loop_appends (rows : list np.row) (acc : VasilievList) :
  fold_left Parameters.append_record (map tuple_of_row rows) acc
  = mkVasilievList (data acc ++ map record_of_row rows).
Proof.
  revert acc. induction rows as [|r rows IH]; intros acc; cbn [fold_left map].
  - rewrite app_nil_r. destruct acc. reflexivity.
  - rewrite IH, append_record_row. cbn [data]. rewrite <- app_assoc. reflexivity.
Qed.

(** What [get_GC_params] does with the rows that loadtxt converted: one
    row cannot be zipped, any other number of rows becomes the list of
    their records, in order. *)
Lemma get_GC_params_rows (fs : filesystem) (fname text : string)
    (rows : list np.row) :
  fs fname = Some text ->
  np.read_rows 0 (np.data_rows text) = Ok rows ->
  Parameters.get_GC_params fs fname
  = match rows with
    | [_] => Err TypeError
    | _ => Ok (mkVasilievList (map record_of_row rows))
    end.
Proof.
  intros Hfs Hrows.
  unfold Parameters.get_GC_params, np.loadtxt, read_text.
  rewrite Hfs. simpl. rewrite Hrows. simpl.
  destruct rows as [|r [|r' rows]]; try reflexivity.
  unfold np.squeeze, np.field, np.iter, bind.
  rewrite zip_columns, loop_appends. reflexivity.
Qed.

Lemma get_GC_params_read_error (fs : filesystem) (fname text : string)
    (e : exception) :
  fs fname = Some text ->
  np.read_rows 0 (np.data_rows text) = Err e ->
  Parameters.get_GC_params fs fname = Err e.
Proof.
  intros Hfs Hrows.
  unfold Parameters.get_GC_params, np.loadtxt, read_text.
  rewrite Hfs. simpl. rewrite Hrows. reflexivity.
Qed.

Lemma get_GC_params_unreadable (fs : filesystem) (fname : string) :
  fs fname = None -> Parameters.get_GC_params fs fname = Err OSError.
Proof.
  intros Hfs. unfold Parameters.get_GC_params, np.loadtxt, read_text.
  rewrite Hfs. reflexivity.
Qed.

(** A catalogue that was loaded is the list of the records of the rows of
    its file, in the order of the file, and the file has not exactly one
    row. *)
Lemma get_GC_params_inv (fs : filesystem) (fname : string) (cat : VasilievList) :
  Parameters.get_GC_params fs fname = Ok cat ->
  exists text rows,
    fs fname = Some text
    /\ np.read_rows 0 (np.data_rows text) = Ok rows
    /\ length rows <> 1%nat
    /\ data cat = map record_of_row rows.
Proof.
  intros H. destruct (fs fname) as [text|] eqn:Hfs.
  2:{ rewrite (get_GC_params_unreadable _ _ Hfs) in H. discriminate. }
  destruct (np.read_rows 0 (np.data_rows text)) as [rows|e] eqn:Hrows.
  2:{ rewrite (get_GC_params_read_error _ _ Hfs Hrows) in H. discriminate. }
  rewrite (get_GC_params_rows _ _ Hfs Hrows) in H.
  exists text, rows. destruct rows as [|r [|r' rows]]; try discriminate;
    injection H as <-; simpl; repeat split; auto; discriminate.
Qed.

End Loader.

(** ** Converting rows *)

Section Rows.
Context {RT : PyRuntime}.

Ltac thirteen toks :=
  do 13 (destruct toks as [|? toks]; [try discriminate; try (simpl in *; lia) | ]);
  (destruct toks as [|? toks]; [ | try discriminate; try (simpl in *; lia) ]).

Lemma convert_row_error (i : nat) (toks : list string) (e : exception) :
  np.convert_row i toks = Err e -> e = ValueError (Some i).
Proof.
  unfold np.convert_row.
  do 13 (destruct toks as [|? toks]; [intros [= <-]; reflexivity | ]).
  destruct toks as [|? toks]; [ | intros [= <-]; reflexivity ].
  repeat match goal with
         | |- context [or_raise ?o _] => destruct o; simpl
         end;
    try discriminate; intros [= <-]; reflexivity.
Qed.

Lemma convert_row_index (i j : nat) (toks : list string) (r : np.row) :
  np.convert_row i toks = Ok r -> np.convert_row j toks = Ok r.
Proof.
  unfold np.convert_row.
  do 13 (destruct toks as [|? toks]; [discriminate | ]).
  destruct toks as [|? toks]; [ | discriminate ].
  repeat match goal with
         | |- context [or_raise ?o _] => destruct o; simpl
         end;
    try discriminate; auto.
Qed.

Lemma convert_row_wellformed (i : nat) (toks : list string) :
  wellformed toks -> exists r, np.convert_row i toks = Ok r.
Proof.
  intros [Hlen Hnum]. thirteen toks.
  unfold np.convert_row.
  pose proof (Hnum 1%nat _ ltac:(lia) eq_refl) as H1.
  pose proof (Hnum 2%nat _ ltac:(lia) eq_refl) as H2.
  pose proof (Hnum 3%nat _ ltac:(lia) eq_refl) as H3.
  pose proof (Hnum 4%nat _ ltac:(lia) eq_refl) as H4.
  pose proof (Hnum 5%nat _ ltac:(lia) eq_refl) as H5.
  pose proof (Hnum 6%nat _ ltac:(lia) eq_refl) as H6.
  pose proof (Hnum 7%nat _ ltac:(lia) eq_refl) as H7.
  pose proof (Hnum 8%nat _ ltac:(lia) eq_refl) as H8.
  pose proof (Hnum 9%nat _ ltac:(lia) eq_refl) as H9.
  pose proof (Hnum 10%nat _ ltac:(lia) eq_refl) as H10.
  pose proof (Hnum 11%nat _ ltac:(lia) eq_refl) as H11.
  pose proof (Hnum 12%nat _ ltac:(lia) eq_refl) as H12.
  clear Hnum. unfold numeric_ok in *. simpl in *.
  repeat match goal with
         | H : match ?o with Some _ => true | None => false end = true |- _ =>
             destruct o; [clear H | discriminate H]
         end.
  simpl. eauto.
Qed.

Lemma convert_row_ok_wellformed (i : nat) (toks : list string) (r : np.row) :
  np.convert_row i toks = Ok r -> wellformed toks.
Proof.
  unfold np.convert_row.
  do 13 (destruct toks as [|? toks]; [discriminate | ]).
  destruct toks as [|? toks]; [ | discriminate ].
  intros H. split; [reflexivity|].
  intros k tok Hk Hnth.
  repeat match type of H with
         | context [or_raise ?o _] => destruct o eqn:?; simpl in H
         end; try discriminate.
  unfold numeric_ok.
  do 13 (destruct k as [|k]; [simpl in *; try lia;
                              injection Hnth as <-;
                              repeat match goal with
                                     | E : _ = Some _ |- _ => rewrite E; clear E
                                     end; reflexivity | ]).
  lia.
Qed.

Lemma malformed_not_wellformed (toks : list string) :
  malformed toks -> ~ wellformed toks.
Proof.
  intros [Hlen | (k & tok & Hk & Hnth & Hbad)] [Hlen' Hnum].
  - contradiction.
  - rewrite (Hnum k tok Hk Hnth) in Hbad. discriminate.
Qed.

Lemma convert_row_malformed (i : nat) (toks : list string) :
  malformed toks -> np.convert_row i toks = Err (ValueError (Some i)).
Proof.
  intros Hbad. destruct (np.convert_row i toks) as [r|e] eqn:E.
  - exfalso. apply (malformed_not_wellformed Hbad).
    apply (convert_row_ok_wellformed _ _ E).
  - rewrite (convert_row_error _ _ E). reflexivity.
Qed.

(** The rows before the first one that cannot be converted are read and
    thrown away: the error names that row. *)
Lemma read_rows_first_bad (i : nat) (pre post : list (list string))
    (bad : list string) :
  Forall wellformed pre -> malformed bad ->
  np.read_rows i (pre ++ bad :: post) = Err (ValueError (Some (i + length pre)%nat)).
Proof.
  intros Hpre Hbad. revert i.
  induction Hpre as [|toks pre Htoks _ IH]; intros i; simpl.
  - rewrite (convert_row_malformed i Hbad), Nat.add_0_r. reflexivity.
  - destruct (convert_row_wellformed i Htoks) as [r ->]. simpl.
    rewrite IH. simpl. f_equal. f_equal. f_equal. lia.
Qed.

Lemma read_rows_wellformed (i : nat) (rows : list (list string)) :
  Forall wellformed rows ->
  exists rs, np.read_rows i rows = Ok rs
             /\ Forall2 (fun toks r => np.convert_row 0 toks = Ok r) rows rs.
Proof.
  intros H. revert i. induction H as [|toks rows Htoks _ IH]; intros i; simpl.
  - exists []. split; [reflexivity | constructor].
  - destruct (convert_row_wellformed i Htoks) as [r Hr]. rewrite Hr. simpl.
    destruct (IH (S i)) as (rs & -> & Hall). simpl.
    exists (r :: rs). split; [reflexivity|].
    constructor; [apply (convert_row_index i 0 toks Hr) | exact Hall].
Qed.

Lemma read_rows_ok (i : nat) (rows : list (list string)) (rs : list np.row) :
  np.read_rows i rows = Ok rs ->
  Forall2 (fun toks r => np.convert_row 0 toks = Ok r) rows rs.
Proof.
  revert i rs. induction rows as [|toks rows IH]; intros i rs; simpl.
  - intros [= <-]. constructor.
  - intros H. inv_bind H. inv_bind H. injection H as <-.
    constructor; [apply (convert_row_index i 0 toks Ha) | apply (IH _ _ Ha0)].
Qed.

End Rows.

Lemma wellformedb_true {RT : PyRuntime} (toks : list string) :
  wellformedb toks = true -> wellformed toks.
Proof.
  unfold wellformedb, wellformed. rewrite andb_true_iff, Nat.eqb_eq, forallb_forall.
  intros [Hlen Hall]. split; [exact Hlen|].
  intros k tok Hk Hnth. specialize (Hall k). rewrite Hnth in Hall.
  apply Hall, in_seq. lia.
Qed.

(** ** Lines without data *)

Lemma split_blank_or_comment (line : string) :
  blank_or_comment line = true -> split (strip_comment line) = [].
Proof.
  unfold split. induction line as [|c rest IH]; simpl; [reflexivity|].
  destruct (Ascii.eqb c hash); [reflexivity|].
  destruct (is_space c) eqn:Hc; [|discriminate].
  intros H. simpl. rewrite Hc. apply IH, H.
Qed.

Lemma data_rows_of_lines (lines : list string) :
  Forall (fun line => blank_or_comment line = true) lines ->
  filter (fun toks : list string => match toks with [] => false | _ => true end)
         (map (fun line => split (strip_comment line)) lines) = [].
Proof.
  induction 1 as [|line lines Hline _ IH]; simpl; [reflexivity|].
  rewrite (split_blank_or_comment line Hline). exact IH.
Qed.

Lemma data_rows_no_data (text : string) :
  Forall (fun line => blank_or_comment line = true) (splitlines text) ->
  np.data_rows text = [].
Proof. apply data_rows_of_lines. Qed.

(** ** Rows are either well formed or malformed *)

Section Decide.
Context {RT : PyRuntime}.

(** Column [k] holds [t], which its converter rejects (equation [F]). *)
Ltac blame_column k t F :=
  exists k, t; repeat split;
  [ lia | lia | unfold numeric_ok; simpl; rewrite F; reflexivity ].

Ltac blame t F :=
  first [ blame_column 1%nat t F | blame_column 2%nat t F
        | blame_column 3%nat t F | blame_column 4%nat t F
        | blame_column 5%nat t F | blame_column 6%nat t F
        | blame_column 7%nat t F | blame_column 8%nat t F
        | blame_column 9%nat t F | blame_column 10%nat t F
        | blame_column 11%nat t F | blame_column 12%nat t F ].

Lemma wellformed_or_malformed (toks : list string) :
  wellformed toks \/ malformed toks.
Proof.
  destruct (np.convert_row 0 toks) as [r|e] eqn:E.
  - left. apply (convert_row_ok_wellformed _ _ E).
  - right. unfold malformed.
    destruct (Nat.eq_dec (length toks) 13) as [Hlen|Hlen]; [|left; exact Hlen].
    right. revert E. unfold np.convert_row.
    do 13 (destruct toks as [|? toks]; [discriminate Hlen | ]).
    destruct toks as [|? toks]; [ | discriminate Hlen ].
    repeat match goal with
           | |- context [or_raise (np_float ?t) _] =>
               let F := fresh "F" in
               destruct (np_float t) eqn:F; simpl; [ | intros _; blame t F ]
           | |- context [or_raise (np_int ?t) _] =>
               let F := fresh "F" in
               destruct (np_int t) eqn:F; simpl; [ | intros _; blame t F ]
           end.
    discriminate.
Qed.

(** A list with a malformed row has a first one. *)
Lemma first_malformed (rows : list (list string)) :
  Exists malformed rows ->
  exists pre bad post,
    rows = pre ++ bad :: post /\ Forall wellformed pre /\ malformed bad.
Proof.
  induction rows as [|toks rows IH]; intros H.
  - inversion H.
  - destruct (wellformed_or_malformed toks) as [Hw|Hm].
    + assert (Hrest : Exists malformed rows).
      { inversion H as [? ? Hbad | ? ? Hbad]; subst; [|exact Hbad].
        exfalso. apply (malformed_not_wellformed Hbad Hw). }
      destruct (IH Hrest) as (pre & bad & post & -> & Hpre & Hbad).
      exists (toks :: pre), bad, post. repeat split; auto.
    + exists [], toks, rows. repeat split; auto.
Qed.

End Decide.

(** ** Coercing a parameter record *)

Section Coercion.
Context {RT : PyRuntime}.

Lemma cluster_found_coerced (item found : ParametersGC.t) :
  Parameters.cluster_found item = Ok found <-> coerced item found.
Proof.
  unfold Parameters.cluster_found, coerced. split.
  - intros H. repeat inv_bind H. injection H as <-. simpl.
    repeat split; assumption.
  - intros (Hn & H1 & H2 & H3 & H4 & H5 & H6 & H7 & H8 & H9 & H10 & H11 & H12 & H13).
    rewrite H1, H2, H3, H4, H5, H6, H7, H8, H9, H10, H11, H12, H13. simpl.
    rewrite <- Hn. destruct found. reflexivity.
Qed.

Lemma cluster_found_declared (item : ParametersGC.t) :
  declared_types item -> Parameters.cluster_found item = Ok item.
Proof.
  intros H. apply cluster_found_coerced. unfold declared_types in H.
  unfold coerced, is_float, is_int in *.
  destruct H as ([? H1] & [? H2] & [? H3] & [? H4] & [? H5] & [? H6] & [? H7]
                 & [? H8] & [? H9] & [? H10] & [? H11] & [? H12] & [? H13]).
  rewrite H1, H2, H3, H4, H5, H6, H7, H8, H9, H10, H11, H12, H13.
  simpl. repeat split; reflexivity.
Qed.

Lemma cluster_found_error (item : ParametersGC.t) (e : exception) :
  Parameters.cluster_found item = Err e -> coercion_error e.
Proof.
  unfold Parameters.cluster_found.
  repeat match goal with
         | |- context [bind (float_ ?v) _] =>
             let E := fresh "E" in
             destruct (float_ v) eqn:E; simpl;
             [ | intros [= <-]; apply (float_error _ E) ]
         | |- context [bind (int_ ?v) _] =>
             let E := fresh "E" in
             destruct (int_ v) eqn:E; simpl;
             [ | intros [= <-]; apply (int_error _ E) ]
         end.
  discriminate.
Qed.

End Coercion.

(** * The claims *)

Section Claims.
Context {RT : PyRuntime} {JW : JsonWizard}.

(** C2.  A query that matches no record of the catalogue, whatever the
    letter case, makes [get_selected_GC] return the record with an empty
    name and zeros together with [False]; the [ClusterNotFound] raised
    inside is caught and nothing is raised to the caller.  In the same
    way [isInJSONParametersFile] of [Parameters.py], on a document that
    loads and holds no matching record, returns [ParametersGC()] and
    [False] without raising. *)
Theorem C2_miss_gives_zero_record_and_false :
  (forall (q : string) (cat : VasilievList),
      Forall (fun r => ~ cluster_matches q r) (data cat) ->
      fst (Parameters.get_selected_GC q cat) = Ok (Parameters.not_found, false)
      /\ zero_cluster Parameters.not_found)
  /\ (forall (fs : filesystem) (path text q : string) (j : json)
             (doc : ParametersList),
         fs path = Some text -> json_loads text = Ok j -> from_dict j = Ok doc ->
         Forall (fun p => ~ parameters_match q p) (globular_cluster doc) ->
         Parameters.isInJSONParametersFile fs path q
         = Ok (ParametersGC.default, false)
         /\ zero_parameters ParametersGC.default).
Proof.
  split.
  - intros q cat H. rewrite get_selected_GC_miss by exact H.
    split; [reflexivity | apply not_found_zero].
  - intros fs path text q j doc Hfs Hj Hd H.
    rewrite (isInJSONParametersFile_loaded _ _ q Hfs Hj Hd).
    rewrite for_item_miss by exact H. split; [reflexivity | apply default_zero].
Qed.

(** C3.  Two queries that differ in letter case only get the same answer
    from [get_selected_GC] on every catalogue (the same record and the
    same boolean, or the same exception), and the same answer from
    [isInJSONParametersFile] on every file. *)
Theorem C3_lookup_ignores_case (q1 q2 : string) :
  case_variant q1 q2 = true ->
  (forall cat : VasilievList,
      fst (Parameters.get_selected_GC q1 cat)
      = fst (Parameters.get_selected_GC q2 cat))
  /\ (forall (fs : filesystem) (path : string),
         Parameters.isInJSONParametersFile fs path q1
         = Parameters.isInJSONParametersFile fs path q2).
Proof.
  intros H. apply case_variant_upper in H. split.
  - intros cat. unfold Parameters.get_selected_GC.
    rewrite (try_body_upper _ _ (data cat) H).
    destruct (Parameters.try_body q2 (data cat)) as [r|[]]; reflexivity.
  - intros fs path. unfold Parameters.isInJSONParametersFile.
    destruct (read_text fs path) as [text|e]; [simpl|reflexivity].
    destruct (json_loads text) as [j|e]; [simpl|reflexivity].
    destruct (from_dict j) as [doc|e]; [simpl|reflexivity].
    apply for_item_upper, H.
Qed.

(** C10.  On a hit the catalogue lookup returns the matched record
    itself, and the store lookup returns a record whose name is the name
    of the matched record: the name comes back as the file has it.  A
    query in another letter case therefore gets a name that is not the
    string it asked for. *)
Theorem C10_hit_returns_stored_name :
  (forall (q : string) (pre post : list VasilievData.t) (item : VasilievData.t),
      Forall (fun r => ~ cluster_matches q r) pre ->
      cluster_matches q item ->
      Parameters.get_selected_GC q (mkVasilievList (pre ++ item :: post))
      = (Ok (item, true), []))
  /\ (forall (fs : filesystem) (path text q : string) (j : json)
             (doc : ParametersList) (pre post : list ParametersGC.t)
             (item found : ParametersGC.t),
         fs path = Some text -> json_loads text = Ok j -> from_dict j = Ok doc ->
         globular_cluster doc = pre ++ item :: post ->
         Forall (fun p => ~ parameters_match q p) pre ->
         parameters_match q item ->
         Parameters.cluster_found item = Ok found ->
         Parameters.isInJSONParametersFile fs path q = Ok (found, true)
         /\ ParametersGC.name found = ParametersGC.name item)
  /\ (exists (q : string) (item : VasilievData.t),
         Parameters.get_selected_GC q (mkVasilievList [item]) = (Ok (item, true), [])
         /\ VasilievData.name item <> q
         /\ case_variant q (VasilievData.name item) = true).
Proof.
  split; [|split].
  - intros q pre post item Hpre Hit. apply get_selected_GC_hit; assumption.
  - intros fs path text q j doc pre post item found Hfs Hj Hd Hdoc Hpre Hit Hf.
    rewrite (isInJSONParametersFile_loaded _ _ q Hfs Hj Hd), Hdoc.
    rewrite for_item_hit by assumption. rewrite Hf. simpl.
    split; [reflexivity|]. apply cluster_found_coerced in Hf. apply Hf.
  - exists "ngc104",
      (VasilievData.make "NGC104" PyNone PyNone PyNone PyNone PyNone PyNone
         PyNone PyNone PyNone PyNone PyNone PyNone).
    repeat split. discriminate.
Qed.

(** C5.  When the document loads and [item] is its first record that
    matches the query, [isInJSONParametersFile] returns [True] with the
    copy of [item] in which every float field went through [float()] and
    every step count through [int()].  The copy exists, and is the
    outcome, as soon as the thirteen coercions succeed; they do, and
    change nothing, when the fields already have their declared types.
    Any value returned on such a document is that copy. *)
Theorem C5_hit_returns_coerced_copy (fs : filesystem) (path text q : string)
    (j : json) (doc : ParametersList) (pre post : list ParametersGC.t)
    (item : ParametersGC.t) :
  fs path = Some text -> json_loads text = Ok j -> from_dict j = Ok doc ->
  globular_cluster doc = pre ++ item :: post ->
  Forall (fun p => ~ parameters_match q p) pre ->
  parameters_match q item ->
  (forall found, coerced item found ->
                 Parameters.isInJSONParametersFile fs path q = Ok (found, true))
  /\ (declared_types item ->
      Parameters.isInJSONParametersFile fs path q = Ok (item, true))
  /\ (forall r b, Parameters.isInJSONParametersFile fs path q = Ok (r, b) ->
                  b = true /\ coerced item r).
Proof.
  intros Hfs Hj Hd Hdoc Hpre Hit.
  rewrite (isInJSONParametersFile_loaded _ _ q Hfs Hj Hd), Hdoc.
  rewrite for_item_hit by assumption.
  split; [|split].
  - intros found Hc. apply cluster_found_coerced in Hc. rewrite Hc. reflexivity.
  - intros Hty. rewrite cluster_found_declared by exact Hty. reflexivity.
  - intros r b H. inv_bind H. injection H as <- <-.
    split; [reflexivity|]. apply cluster_found_coerced, Ha.
Qed.

(** C7.  When the path cannot be opened for reading, [get_GC_params] and
    both [isInJSONParametersFile] raise the error of the failed open;
    none of them tries again or returns a value.  The OSError of Python
    is what the specification calls CatalogUnavailable for the catalogue
    and StoreUnavailable for the store. *)
Theorem C7_unreadable_file_raises (fs : filesystem) (path : string) :
  fs path = None ->
  Parameters.get_GC_params fs path = Err OSError
  /\ (forall q, Parameters.isInJSONParametersFile fs path q = Err OSError)
  /\ Parameters_JSON.isInJSONParametersFile fs path = Err OSError.
Proof.
  intros H. split; [|split].
  - apply get_GC_params_unreadable, H.
  - intros q. unfold Parameters.isInJSONParametersFile, read_text.
    rewrite H. reflexivity.
  - unfold Parameters_JSON.isInJSONParametersFile, read_text.
    rewrite H. reflexivity.
Qed.

(** C9.  On every document that loads and holds at least one record, the
    function of [Parameters_JSON.py] raises NameError at the first turn of
    its loop, because nothing binds [object_name] there, while the
    function of [Parameters.py] never raises NameError whatever the
    object name: no object name makes the two agree.  They agree only on
    a document without records. *)
Theorem C9_variants_disagree (fs : filesystem) (path text : string)
    (j : json) (doc : ParametersList) :
  fs path = Some text -> json_loads text = Ok j -> from_dict j = Ok doc ->
  (globular_cluster doc <> [] ->
   Parameters_JSON.isInJSONParametersFile fs path = Err NameError
   /\ forall q, Parameters.isInJSONParametersFile fs path q
                <> Parameters_JSON.isInJSONParametersFile fs path)
  /\ (globular_cluster doc = [] ->
      forall q, Parameters.isInJSONParametersFile fs path q
                = Parameters_JSON.isInJSONParametersFile fs path).
Proof.
  intros Hfs Hj Hd.
  assert (HJ : Parameters_JSON.isInJSONParametersFile fs path
               = Parameters_JSON.for_item (globular_cluster doc)).
  { unfold Parameters_JSON.isInJSONParametersFile, read_text.
    rewrite Hfs. simpl. rewrite Hj. simpl. rewrite Hd. reflexivity. }
  split.
  - intros Hne.
    assert (HN : Parameters_JSON.isInJSONParametersFile fs path = Err NameError).
    { rewrite HJ. destruct (globular_cluster doc) as [|item rest];
        [contradiction | reflexivity]. }
    split; [exact HN|].
    intros q. rewrite HN, (isInJSONParametersFile_loaded _ _ q Hfs Hj Hd).
    clear. induction (globular_cluster doc) as [|item rest IH]; simpl.
    + discriminate.
    + destruct (String.eqb _ _); [|exact IH].
      destruct (Parameters.cluster_found item) as [found|e] eqn:E; simpl.
      * discriminate.
      * intros [= ->]. apply cluster_found_error in E.
        destruct E as [E|[E|E]]; discriminate E.
  - intros Hnil q.
    rewrite HJ, (isInJSONParametersFile_loaded _ _ q Hfs Hj Hd), Hnil.
    reflexivity.
Qed.

End Claims.

(** ** From the rows of the file to the records of the catalogue *)

Section LoadedCatalog.
Context {RT : PyRuntime}.



Lemma Forall2_records (rows : list (list string)) (rs : list np.row) :
  Forall2 (fun toks r => np.convert_row 0 toks = Ok r) rows rs ->
  Forall2 (fun toks rec => exists r, np.convert_row 0 toks = Ok r
                                     /\ rec = record_of_row r)
          rows (map record_of_row rs).
Proof.
  induction 1 as [|toks r rows rs Hr _ IH]; simpl; constructor; eauto.
Qed.


End LoadedCatalog.

Section LoaderClaims.
Context {RT : PyRuntime}.

(** C1.  A catalogue file with exactly one data row, however well formed,
    cannot be loaded: loadtxt squeezes the array of one row to dimension
    0, the thirteen columns are 0-d arrays, and the [zip] of
    [get_GC_params] raises TypeError.  No list is returned and no lookup
    can follow. *)
Theorem C1_one_row_catalog_raises (fs : filesystem) (fname text : string)
    (toks : list string) :
  fs fname = Some text ->
  np.data_rows text = [toks] ->
  wellformed toks ->
  Parameters.get_GC_params fs fname = Err TypeError.
Proof.
  intros Hfs Hrows Hwf.
  assert (Hall : Forall wellformed (np.data_rows text)).
  { rewrite Hrows. constructor; [exact Hwf | constructor]. }
  destruct (read_rows_wellformed 0 Hall) as (rs & Hread & Hrs).
  rewrite (get_GC_params_rows _ _ Hfs Hread).
  rewrite Hrows in Hrs.
  inversion Hrs as [|? r ? rs' _ Hnil]; subst. inversion Hnil; subst.
  reflexivity.
Qed.

(** C4.  A catalogue that was loaded holds the records of the data rows
    of its file in the order of the file.  When two of its records match
    a query and no record before the first of the two does, the lookup
    returns the first. *)
Theorem C4_first_of_duplicates_wins (fs : filesystem) (fname : string)
    (cat : VasilievList) :
  Parameters.get_GC_params fs fname = Ok cat ->
  (exists text,
      fs fname = Some text
      /\ Forall2 (fun toks rec => exists r, np.convert_row 0 toks = Ok r
                                            /\ rec = record_of_row r)
                 (np.data_rows text) (data cat))
  /\ (forall (q : string) (pre mid post : list VasilievData.t)
             (r1 r2 : VasilievData.t),
         data cat = pre ++ r1 :: mid ++ r2 :: post ->
         cluster_matches q r1 -> cluster_matches q r2 ->
         Forall (fun r => ~ cluster_matches q r) pre ->
         Parameters.get_selected_GC q cat = (Ok (r1, true), [])).
Proof.
  intros H. split.
  - destruct (get_GC_params_inv _ _ H) as (text & rows & Hfs & Hread & _ & Hdata).
    exists text. split; [exact Hfs|].
    rewrite Hdata. apply Forall2_records. apply (read_rows_ok _ _ Hread).
  - intros q pre mid post r1 r2 Hdata H1 _ Hpre.
    destruct cat as [items]. simpl in Hdata. subst items.
    apply get_selected_GC_hit; assumption.
Qed.

(** C6.  When a data row of the file is malformed (it has not 13 fields,
    or a numeric column of it holds something that is no number),
    [get_GC_params] raises the ValueError of loadtxt, which names the
    first malformed row; the row is not skipped and no list, not even of
    the rows before it, is returned. *)
Theorem C6_malformed_row_raises (fs : filesystem) (fname text : string) :
  fs fname = Some text ->
  Exists malformed (np.data_rows text) ->
  exists (i : nat) (bad : list string),
    nth_error (np.data_rows text) i = Some bad
    /\ malformed bad
    /\ (forall k toks, (k < i)%nat -> nth_error (np.data_rows text) k = Some toks ->
                       wellformed toks)
    /\ Parameters.get_GC_params fs fname = Err (ValueError (Some i)).
Proof.
  intros Hfs Hex.
  destruct (first_malformed Hex) as (pre & bad & post & Hrows & Hpre & Hbad).
  exists (length pre), bad. rewrite Hrows. split; [|split; [|split]].
  - rewrite nth_error_app2 by lia. rewrite Nat.sub_diag. reflexivity.
  - exact Hbad.
  - intros k toks Hk Hnth. rewrite nth_error_app1 in Hnth by exact Hk.
    rewrite Forall_forall in Hpre. apply Hpre. apply (nth_error_In _ _ Hnth).
  - apply (get_GC_params_read_error _ _ Hfs).
    rewrite Hrows. apply (read_rows_first_bad 0 post Hpre Hbad).
Qed.

(** C8.  A file in which every line is blank or a comment loads as the
    empty list, and every lookup in that list returns [False] with the
    record of zeros. *)
Theorem C8_no_data_rows_gives_empty_catalog (fs : filesystem)
    (fname text : string) :
  fs fname = Some text ->
  Forall (fun line => blank_or_comment line = true) (splitlines text) ->
  Parameters.get_GC_params fs fname = Ok (mkVasilievList [])
  /\ forall q,
       fst (Parameters.get_selected_GC q (mkVasilievList []))
       = Ok (Parameters.not_found, false)
       /\ zero_cluster Parameters.not_found.
Proof.
  intros Hfs Hlines. split.
  - assert (Hread : np.read_rows 0 (np.data_rows text) = Ok []).
    { rewrite (data_rows_no_data text Hlines). reflexivity. }
    rewrite (get_GC_params_rows _ _ Hfs Hread). reflexivity.
  - intros q. split; [reflexivity | apply not_found_zero].
Qed.

End LoaderClaims.

(** * Properties beyond the claims *)

(** ** Lines and fields of a text *)

Lemma string_app_assoc (a b c : string) : ((a ++ b) ++ c = a ++ (b ++ c))%string.
Proof. induction a as [|x a IH]; simpl; [|rewrite IH]; reflexivity. Qed.

Lemma string_app_empty_r (a : string) : (a ++ "")%string = a.
Proof. induction a as [|x a IH]; simpl; [|rewrite IH]; reflexivity. Qed.

Lemma splitlines_from_app (cur a b : string) (c : ascii) :
  is_newline c = true ->
  splitlines_from cur (a ++ String c b)
  = splitlines_from cur a ++ splitlines b.
Proof.
  intros Hc. revert cur. induction a as [|x a IH]; intros cur; simpl.
  - rewrite Hc. reflexivity.
  - destruct (is_newline x); simpl; rewrite IH; reflexivity.
Qed.

Lemma splitlines_from_line (cur line : string) :
  no_newline line = true -> splitlines_from cur line = [(cur ++ line)%string].
Proof.
  revert cur. induction line as [|x line IH]; intros cur; simpl.
  - rewrite string_app_empty_r. reflexivity.
  - destruct (is_newline x); simpl; [discriminate|].
    intros H. rewrite IH by exact H. rewrite string_app_assoc. reflexivity.
Qed.

Lemma data_rows_lines (text : string) :
  np.data_rows text = flat_map rows_of_line (splitlines text).
Proof.
  unfold np.data_rows. induction (splitlines text) as [|line lines IH]; simpl.
  - reflexivity.
  - unfold rows_of_line at 1.
    destruct (split (strip_comment line)); simpl; rewrite IH; reflexivity.
Qed.

(** The rows of a text are the rows of its part before a line end,
    followed by the rows of the rest. *)
Lemma data_rows_app (a b : string) :
  np.data_rows (a ++ newline ++ b) = np.data_rows a ++ np.data_rows b.
Proof.
  rewrite !data_rows_lines. unfold splitlines, newline. simpl.
  rewrite splitlines_from_app by reflexivity.
  apply flat_map_app.
Qed.

Lemma data_rows_line (line : string) :
  no_newline line = true -> np.data_rows line = rows_of_line line.
Proof.
  intros H. rewrite data_rows_lines. unfold splitlines.
  rewrite splitlines_from_line by exact H. simpl. apply app_nil_r.
Qed.

Lemma rows_of_blank_or_comment (line : string) :
  blank_or_comment line = true -> rows_of_line line = [].
Proof.
  intros H. unfold rows_of_line. rewrite split_blank_or_comment by exact H.
  reflexivity.
Qed.

Lemma strip_comment_app (l c : string) :
  no_hash l = true -> strip_comment (l ++ String hash c) = l.
Proof.
  induction l as [|x l IH]; simpl.
  - reflexivity.
  - destruct (Ascii.eqb x hash); simpl; [discriminate|].
    intros H. rewrite IH by exact H. reflexivity.
Qed.

Lemma strip_comment_no_hash (l : string) :
  no_hash l = true -> strip_comment l = l.
Proof.
  induction l as [|x l IH]; simpl; [reflexivity|].
  destruct (Ascii.eqb x hash); simpl; [discriminate|].
  intros H. rewrite IH by exact H. reflexivity.
Qed.


Lemma split_from_plain (cur t rest : string) :
  plain_chars t = true ->
  split_from cur (t ++ rest) = split_from (cur ++ t) rest.
Proof.
  revert cur. induction t as [|x t IH]; intros cur; simpl.
  - rewrite string_app_empty_r. reflexivity.
  - destruct (is_space x); simpl; [discriminate|].
    destruct (Ascii.eqb x hash); simpl; [discriminate|].
    intros H. rewrite IH by exact H. rewrite string_app_assoc. reflexivity.
Qed.

Lemma plain_chars_no_hash (t : string) : plain_chars t = true -> no_hash t = true.
Proof.
  induction t as [|x t IH]; simpl; [reflexivity|].
  destruct (is_space x); simpl; [discriminate|].
  destruct (Ascii.eqb x hash); simpl; [discriminate | exact IH].
Qed.

Lemma is_newline_is_space (c : ascii) : is_newline c = true -> is_space c = true.
Proof.
  unfold is_newline. rewrite orb_true_iff, !Ascii.eqb_eq.
  intros [-> | ->]; reflexivity.
Qed.

Lemma plain_chars_no_newline (t : string) :
  plain_chars t = true -> no_newline t = true.
Proof.
  induction t as [|x t IH]; simpl; [reflexivity|].
  destruct (is_newline x) eqn:N.
  - rewrite (is_newline_is_space x N). discriminate.
  - destruct (is_space x); simpl; [discriminate|].
    destruct (Ascii.eqb x hash); simpl; [discriminate | exact IH].
Qed.

Lemma plain_field_chars (f : string) : plain_field f = true -> plain_chars f = true.
Proof. destruct f; [discriminate | auto]. Qed.

Lemma split_join (fields : list string) :
  Forall (fun f => plain_field f = true) fields -> split (join fields) = fields.
Proof.
  unfold split. induction 1 as [|f rest Hf Hrest IH]; [reflexivity|].
  pose proof (plain_field_chars f Hf) as Hc.
  destruct rest as [|g rest].
  - simpl. rewrite <- (string_app_empty_r f) at 1.
    rewrite split_from_plain by exact Hc. simpl.
    destruct f; [discriminate | reflexivity].
  - change (join (f :: g :: rest))
      with (f ++ String (ascii_of_nat 32) (join (g :: rest)))%string.
    rewrite split_from_plain by exact Hc.
    change (split_from (EmptyString ++ f)
              (String (ascii_of_nat 32) (join (g :: rest))))
      with (match f with
            | EmptyString => split_from EmptyString (join (g :: rest))
            | _ => f :: split_from EmptyString (join (g :: rest))
            end).
    rewrite IH. destruct f; [discriminate | reflexivity].
Qed.

Lemma no_hash_app (a b : string) :
  no_hash a = true -> no_hash b = true -> no_hash (a ++ b) = true.
Proof.
  induction a as [|x a IH]; simpl; [auto|].
  destruct (Ascii.eqb x hash); simpl; [discriminate | exact IH].
Qed.

Lemma no_newline_app (a b : string) :
  no_newline a = true -> no_newline b = true -> no_newline (a ++ b) = true.
Proof.
  induction a as [|x a IH]; simpl; [auto|].
  destruct (is_newline x); simpl; [discriminate | exact IH].
Qed.

Lemma join_no_hash (fields : list string) :
  Forall (fun f => plain_field f = true) fields -> no_hash (join fields) = true.
Proof.
  induction 1 as [|f rest Hf Hrest IH]; [reflexivity|].
  pose proof (plain_chars_no_hash f (plain_field_chars f Hf)) as H.
  destruct rest as [|g rest]; [exact H|].
  change (join (f :: g :: rest))
    with (f ++ String (ascii_of_nat 32) (join (g :: rest)))%string.
  apply no_hash_app; [exact H | exact IH].
Qed.

Lemma join_no_newline (fields : list string) :
  Forall (fun f => plain_field f = true) fields -> no_newline (join fields) = true.
Proof.
  induction 1 as [|f rest Hf Hrest IH]; [reflexivity|].
  pose proof (plain_chars_no_newline f (plain_field_chars f Hf)) as H.
  destruct rest as [|g rest]; [exact H|].
  change (join (f :: g :: rest))
    with (f ++ String (ascii_of_nat 32) (join (g :: rest)))%string.
  apply no_newline_app; [exact H | exact IH].
Qed.

Lemma rows_of_line_join (fields : list string) :
  fields <> [] ->
  Forall (fun f => plain_field f = true) fields ->
  rows_of_line (join fields) = [fields].
Proof.
  intros Hne H. unfold rows_of_line.
  rewrite strip_comment_no_hash by (apply join_no_hash, H).
  rewrite split_join by exact H.
  destruct fields; [contradiction | reflexivity].
Qed.

(** Reading back a text written from rows of plain fields gives the
    rows. *)
Lemma data_rows_render (rows : list (list string)) :
  Forall (fun r => r <> [] /\ Forall (fun f => plain_field f = true) r) rows ->
  np.data_rows (render rows) = rows.
Proof.
  induction 1 as [|r rows [Hne Hr] _ IH]; [reflexivity|].
  change (render (r :: rows)) with (join r ++ newline ++ render rows)%string.
  rewrite data_rows_app, IH.
  rewrite data_rows_line by (apply join_no_newline, Hr).
  rewrite rows_of_line_join by assumption. reflexivity.
Qed.

Section CatalogMore.
Context {RT : PyRuntime}.




Lemma get_GC_params_data_rows (fs1 fs2 : filesystem) (f1 f2 t1 t2 : string) :
  fs1 f1 = Some t1 -> fs2 f2 = Some t2 ->
  np.data_rows t1 = np.data_rows t2 ->
  Parameters.get_GC_params fs1 f1 = Parameters.get_GC_params fs2 f2.
Proof.
  intros H1 H2 E.
  unfold Parameters.get_GC_params, np.loadtxt, read_text.
  rewrite H1, H2. simpl. rewrite E. reflexivity.
Qed.



(** X1.  [get_selected_GC] never raises.  It answers [True] exactly when
    some record of the catalogue has the name of the query up to letter
    case; the record it returns is then a record of the catalogue with
    such a name, and nothing is printed.  Otherwise it returns the record
    of zeros and prints its three lines, the first of which quotes the
    query as it was typed. *)
Theorem get_selected_GC_decides (q : string) (cat : VasilievList) :
  exists (r : VasilievData.t) (b : bool),
    Parameters.get_selected_GC q cat
    = (Ok (r, b),
       if b then []
       else [(repr q ++ " object not found in Globular Cluster list!")%string;
             "You will have to add coordinates manually in the next cell.";
             ""])
    /\ (b = true <-> Exists (cluster_matches q) (data cat))
    /\ (b = true -> In r (data cat) /\ cluster_matches q r)
    /\ (b = false -> r = Parameters.not_found).
Proof.
  destruct (try_body_cases q (data cat))
    as [(pre & item & post & Hdata & Hpre & Hit & Hres) | [Hall Hres]].
  - exists item, true. unfold Parameters.get_selected_GC. rewrite Hres.
    split; [reflexivity|]. split; [|split].
    + split; [intros _ | reflexivity].
      rewrite Hdata. apply Exists_app. right. apply Exists_cons_hd, Hit.
    + intros _. split; [|exact Hit].
      rewrite Hdata. apply in_or_app. right. left. reflexivity.
    + discriminate.
  - exists Parameters.not_found, false. unfold Parameters.get_selected_GC.
    rewrite Hres. split; [reflexivity|]. split; [|split].
    + split; [discriminate|]. intros Hex. exfalso.
      apply Exists_exists in Hex. destruct Hex as (r & Hin & Hr).
      rewrite Forall_forall in Hall. apply (Hall r Hin Hr).
    + discriminate.
    + reflexivity.
Qed.



(** X5.  Lines that hold no data do not count: a blank line or a comment
    line put between two lines of a catalogue file, and a comment put at
    the end of a line, leave the outcome of [get_GC_params] as it was,
    value or exception. *)
Theorem comments_change_nothing :
  (forall (fs1 fs2 : filesystem) (f1 f2 a b c : string),
      fs1 f1 = Some (a ++ newline ++ c ++ newline ++ b)%string ->
      fs2 f2 = Some (a ++ newline ++ b)%string ->
      no_newline c = true -> blank_or_comment c = true ->
      Parameters.get_GC_params fs1 f1 = Parameters.get_GC_params fs2 f2)
  /\ (forall (fs1 fs2 : filesystem) (f1 f2 a b l c : string),
         fs1 f1 = Some (a ++ newline ++ (l ++ String hash c) ++ newline ++ b)%string ->
         fs2 f2 = Some (a ++ newline ++ l ++ newline ++ b)%string ->
         no_newline l = true -> no_newline c = true -> no_hash l = true ->
         Parameters.get_GC_params fs1 f1 = Parameters.get_GC_params fs2 f2).
Proof.
  split.
  - intros fs1 fs2 f1 f2 a b c H1 H2 Hnl Hc.
    apply (get_GC_params_data_rows _ _ _ _ H1 H2).
    rewrite !data_rows_app. rewrite (data_rows_line c) by exact Hnl.
    rewrite rows_of_blank_or_comment by exact Hc. reflexivity.
  - intros fs1 fs2 f1 f2 a b l c H1 H2 Hl Hc Hh.
    apply (get_GC_params_data_rows _ _ _ _ H1 H2).
    rewrite !data_rows_app.
    rewrite (data_rows_line l) by exact Hl.
    rewrite (data_rows_line (l ++ String hash c)).
    + unfold rows_of_line. rewrite strip_comment_app by exact Hh.
      rewrite strip_comment_no_hash by exact Hh. reflexivity.
    + apply no_newline_app; [exact Hl|]. simpl. exact Hc.
Qed.

(** X6.  A catalogue text written from rows of plain fields, one row per
    line with a blank between two fields, loads as the records of those
    rows in their order, provided the rows are well formed and are not
    exactly one. *)
Theorem rendered_catalog_loads (fs : filesystem) (fname : string)
    (rows : list (list string)) :
  fs fname = Some (render rows) ->
  Forall (fun r => Forall (fun f => plain_field f = true) r) rows ->
  Forall wellformed rows ->
  length rows <> 1%nat ->
  exists cat,
    Parameters.get_GC_params fs fname = Ok cat
    /\ Forall2 (fun toks rec => exists r, np.convert_row 0 toks = Ok r
                                          /\ rec = record_of_row r)
               rows (data cat).
Proof.
  intros Hfs Hplain Hwf Hlen.
  assert (Hrows : np.data_rows (render rows) = rows).
  { apply data_rows_render. rewrite Forall_forall in *.
    intros r Hin. split; [|apply Hplain, Hin].
    destruct (Hwf r Hin) as [Hl _]. intros ->. discriminate Hl. }
  destruct (read_rows_wellformed 0 Hwf) as (rs & Hread & Hall).
  rewrite <- Hrows in Hread.
  exists (mkVasilievList (map record_of_row rs)). split.
  - rewrite (get_GC_params_rows _ _ Hfs Hread).
    pose proof (Forall2_length Hall) as Hl.
    destruct rs as [|r1 [|r2 rs]]; try reflexivity.
    exfalso. apply Hlen. rewrite Hl. reflexivity.
  - apply Forall2_records, Hall.
Qed.

End CatalogMore.

Section StoreMore.
Context {RT : PyRuntime} {JW : JsonWizard}.

Lemma float_is_float (v w : pyval) : float_ v = Ok w -> is_float w.
Proof.
  unfold is_float.
  destruct v as [| b | n | x | s |]; simpl;
    repeat match goal with
           | |- context [or_raise ?o _] => destruct o; simpl
           end;
    try discriminate; intros [= <-]; eauto.
Qed.

Lemma int_is_int (v w : pyval) : int_ v = Ok w -> is_int w.
Proof.
  unfold is_int.
  destruct v as [| b | n | x | s |]; simpl;
    repeat match goal with
           | |- context [or_raise ?o _] => destruct o; simpl
           | |- context [float_trunc ?x] => destruct (float_trunc x)
           | |- context [float_is_nan ?x] => destruct (float_is_nan x)
           end;
    try discriminate; intros [= <-]; eauto.
Qed.

Lemma cluster_found_typed (item found : ParametersGC.t) :
  Parameters.cluster_found item = Ok found -> declared_types found.
Proof.
  intros H. apply cluster_found_coerced in H.
  destruct H as (_ & H1 & H2 & H3 & H4 & H5 & H6 & H7 & H8 & H9 & H10 & H11
                 & H12 & H13).
  unfold declared_types.
  repeat split;
    first [ eapply float_is_float; eassumption
          | eapply int_is_int; eassumption ].
Qed.

Lemma default_typed : declared_types ParametersGC.default.
Proof.
  unfold declared_types, is_float, is_int. simpl. repeat split; eauto.
Qed.

(** What the loop of [Parameters.py] can return. *)
Lemma for_item_inv (q : string) (items : list ParametersGC.t)
    (r : ParametersGC.t) (b : bool) :
  Parameters.for_item q items = Ok (r, b) ->
  (b = true /\ exists item, In item items /\ parameters_match q item
                            /\ Parameters.cluster_found item = Ok r)
  \/ (b = false /\ r = ParametersGC.default
      /\ Forall (fun p => ~ parameters_match q p) items).
Proof.
  induction items as [|item items IH]; simpl.
  - intros [= <- <-]. right. repeat split. constructor.
  - destruct (String.eqb_spec (upper (ParametersGC.name item)) (upper q)) as [E|E].
    + intros H. inv_bind H. injection H as <- <-.
      left. split; [reflexivity|]. exists item. repeat split; auto.
    + intros H. destruct (IH H) as [(Hb & it & Hin & Hm & Hf) | (Hb & Hr & Hall)].
      * left. split; [exact Hb|]. exists it. repeat split; auto.
      * right. repeat split; auto.
Qed.

Lemma isInJSONParametersFile_inv (fs : filesystem) (path q : string)
    (r : ParametersGC.t) (b : bool) :
  Parameters.isInJSONParametersFile fs path q = Ok (r, b) ->
  exists text j doc,
    fs path = Some text /\ json_loads text = Ok j /\ from_dict j = Ok doc
    /\ Parameters.for_item q (globular_cluster doc) = Ok (r, b).
Proof.
  unfold Parameters.isInJSONParametersFile, read_text.
  destruct (fs path) as [text|]; simpl; [|discriminate].
  destruct (json_loads text) as [j|e] eqn:Hj; simpl; [|discriminate].
  destruct (from_dict j) as [doc|e] eqn:Hd; simpl; [|discriminate].
  intros H. exists text, j, doc. auto.
Qed.

(** X7.  A file that opens but does not decode, as JSON or as a
    [ParametersList], makes [isInJSONParametersFile] raise the exception
    of the decoder, in both files and for every object name; the record
    of defaults is not returned in its place. *)
Theorem undecodable_document_raises (fs : filesystem) (path text : string)
    (e : exception) :
  fs path = Some text ->
  (json_loads text = Err e
   \/ exists j, json_loads text = Ok j /\ from_dict j = Err e) ->
  (forall q, Parameters.isInJSONParametersFile fs path q = Err e)
  /\ Parameters_JSON.isInJSONParametersFile fs path = Err e.
Proof.
  intros Hfs H.
  unfold Parameters.isInJSONParametersFile,
    Parameters_JSON.isInJSONParametersFile, read_text.
  rewrite Hfs. simpl.
  destruct H as [Hj | (j & Hj & Hd)]; rewrite Hj; simpl.
  - split; reflexivity.
  - rewrite Hd. split; reflexivity.
Qed.


(** X9.  Every record that [isInJSONParametersFile] of [Parameters.py]
    returns has a float in each float field and an int in each step
    count, so that coercing it again changes nothing.  With [True] its
    name is the query up to letter case; with [False] it is
    [ParametersGC()]. *)
Theorem returned_parameters_are_typed (fs : filesystem) (path q : string)
    (r : ParametersGC.t) (b : bool) :
  Parameters.isInJSONParametersFile fs path q = Ok (r, b) ->
  declared_types r
  /\ Parameters.cluster_found r = Ok r
  /\ (b = true -> parameters_match q r)
  /\ (b = false -> r = ParametersGC.default).
Proof.
  intros H.
  destruct (isInJSONParametersFile_inv _ _ _ H) as (text & j & doc & _ & _ & _ & Hf).
  assert (Hty : declared_types r).
  { destruct (for_item_inv _ _ Hf) as [(_ & item & _ & _ & Hc) | (_ & -> & _)].
    - apply (cluster_found_typed _ Hc).
    - apply default_typed. }
  split; [exact Hty|]. split; [apply cluster_found_declared, Hty|].
  destruct (for_item_inv _ _ Hf) as [(-> & item & _ & Hm & Hc) | (-> & -> & _)].
  - split; [|discriminate]. intros _.
    apply cluster_found_coerced in Hc. destruct Hc as [Hn _].
    unfold parameters_match in *. rewrite Hn. exact Hm.
  - split; [discriminate | reflexivity].
Qed.


(** X11.  On a document whose records all have their declared types,
    [isInJSONParametersFile] of [Parameters.py] raises nothing.  It
    answers [True] exactly when some record has the name of the query up
    to letter case, and then returns a record of the document as it
    stands there; otherwise it returns [ParametersGC()]. *)
Theorem typed_document_lookup (fs : filesystem) (path text q : string)
    (j : json) (doc : ParametersList) :
  fs path = Some text -> json_loads text = Ok j -> from_dict j = Ok doc ->
  Forall declared_types (globular_cluster doc) ->
  exists (r : ParametersGC.t) (b : bool),
    Parameters.isInJSONParametersFile fs path q = Ok (r, b)
    /\ (b = true <-> Exists (parameters_match q) (globular_cluster doc))
    /\ (b = true -> In r (globular_cluster doc) /\ parameters_match q r)
    /\ (b = false -> r = ParametersGC.default).
Proof.
  intros Hfs Hj Hd Hty.
  rewrite (isInJSONParametersFile_loaded _ _ q Hfs Hj Hd).
  induction Hty as [|item items Hitem _ IH]; simpl.
  - exists ParametersGC.default, false. split; [reflexivity|].
    split; [|split]; try discriminate; try reflexivity.
    split; [discriminate|]. intros H. inversion H.
  - destruct (String.eqb_spec (upper (ParametersGC.name item)) (upper q)) as [E|E].
    + exists item, true. rewrite cluster_found_declared by exact Hitem.
      split; [reflexivity|]. split; [|split].
      * split; [intros _; apply Exists_cons_hd, E | reflexivity].
      * intros _. split; [left; reflexivity | exact E].
      * discriminate.
    + destruct IH as (r & b & Hres & Hiff & Hin & Hdef).
      exists r, b. split; [exact Hres|]. split; [|split].
      * rewrite Hiff. split; [apply Exists_cons_tl|].
        intros H. inversion H as [? ? Hm | ? ? Hm]; subst; [contradiction | exact Hm].
      * intros Hb. destruct (Hin Hb) as [Hi Hm]. split; [right; exact Hi | exact Hm].
      * exact Hdef.
Qed.

End StoreMore.

Section Composition.
Context {RT : PyRuntime} {JW : JsonWizard}.

(** X12.  A lookup can be repeated with the name it returned: asking
    for the name of the record that came back with [True] gives that
    record again, in the catalogue and in the parameter file. *)
Theorem lookup_by_returned_name :
  (forall (q : string) (cat : VasilievList) (r : VasilievData.t),
      fst (Parameters.get_selected_GC q cat) = Ok (r, true) ->
      Parameters.get_selected_GC (VasilievData.name r) cat = (Ok (r, true), []))
  /\ (forall (fs : filesystem) (path q : string) (r : ParametersGC.t),
         Parameters.isInJSONParametersFile fs path q = Ok (r, true) ->
         Parameters.isInJSONParametersFile fs path (ParametersGC.name r)
         = Ok (r, true)).
Proof.
  split.
  - intros q cat r Hres. unfold Parameters.get_selected_GC in *.
    destruct (try_body_cases q (data cat))
      as [(pre & item & post & Hdata & _ & Hit & Htb) | [_ Htb]];
      rewrite Htb in Hres; simpl in Hres; [|discriminate].
    injection Hres as <-.
    rewrite (try_body_upper (VasilievData.name item) q (data cat) Hit), Htb.
    reflexivity.
  - intros fs path q r Hres.
    destruct (isInJSONParametersFile_inv _ _ _ Hres)
      as (text & j & doc & Hfs & Hj & Hd & Hf).
    rewrite (isInJSONParametersFile_loaded _ _ _ Hfs Hj Hd).
    destruct (for_item_inv _ _ Hf) as [(_ & item & _ & Hm & Hc) | (Hb & _)];
      [|discriminate Hb].
    apply cluster_found_coerced in Hc. destruct Hc as [Hn _].
    rewrite (for_item_upper (ParametersGC.name r) q).
    + exact Hf.
    + rewrite Hn. exact Hm.
Qed.

End Composition.

Section Padding.
Context {RT : PyRuntime}.

Lemma space_is_not_hash (w : ascii) : is_space w = true -> Ascii.eqb w hash = false.
Proof.
  intros H. destruct (Ascii.eqb_spec w hash) as [->|]; [discriminate H | reflexivity].
Qed.

Lemma split_from_double_space (cur b : string) (w w' : ascii) :
  is_space w = true -> is_space w' = true ->
  split_from cur (String w (String w' b)) = split_from cur (String w b).
Proof.
  intros Hw Hw'. simpl. rewrite Hw, Hw'. reflexivity.
Qed.

Lemma split_strip_double_space (cur l1 l2 : string) (w w' : ascii) :
  is_space w = true -> is_space w' = true ->
  split_from cur (strip_comment (l1 ++ String w (String w' l2)))
  = split_from cur (strip_comment (l1 ++ String w l2)).
Proof.
  intros Hw Hw'. revert cur. induction l1 as [|c l1 IH]; intros cur.
  - simpl. rewrite !space_is_not_hash by assumption.
    apply split_from_double_space; assumption.
  - simpl. destruct (Ascii.eqb c hash); [reflexivity|].
    simpl. destruct (is_space c); [destruct cur|]; rewrite IH; reflexivity.
Qed.

(** X13.  The amount of white space between two fields does not count:
    a second blank or tab next to one that stands in a line leaves the
    outcome of [get_GC_params] as it was, so the columns of the file may
    be padded. *)
Theorem padding_changes_nothing (fs1 fs2 : filesystem)
    (f1 f2 a b l1 l2 : string) (w w' : ascii) :
  fs1 f1 = Some (a ++ newline ++ (l1 ++ String w (String w' l2)) ++ newline ++ b)%string ->
  fs2 f2 = Some (a ++ newline ++ (l1 ++ String w l2) ++ newline ++ b)%string ->
  is_space w = true -> is_space w' = true ->
  no_newline l1 = true -> no_newline l2 = true ->
  is_newline w = false -> is_newline w' = false ->
  Parameters.get_GC_params fs1 f1 = Parameters.get_GC_params fs2 f2.
Proof.
  intros H1 H2 Hw Hw' Hl1 Hl2 Nw Nw'.
  apply (get_GC_params_data_rows _ _ _ _ H1 H2).
  rewrite !data_rows_app.
  rewrite (data_rows_line (l1 ++ String w (String w' l2))),
          (data_rows_line (l1 ++ String w l2)).
  - unfold rows_of_line, split.
    rewrite split_strip_double_space by assumption. reflexivity.
  - apply no_newline_app; [exact Hl1|]. simpl. rewrite Nw. exact Hl2.
  - apply no_newline_app; [exact Hl1|]. simpl. rewrite Nw, Nw'. exact Hl2.
Qed.

End Padding.

(** * The claims on the example files *)

#[local] Existing Instance Fixture.runtime.
#[local] Existing Instance Fixture.store.

Lemma C1_one_row_catalog_raises_witness :
  np.data_rows Fixture.one_row
  = [["NGC104"; "6.024"; "-72.081"; "4.5"; "-17.2"; "0.2"; "5.25"; "-2.53";
      "0.01"; "0.01"; "-0.02"; "18.3"; "23918"]]
  /\ Parameters.get_GC_params (Fixture.one_file "vasiliev.txt" Fixture.one_row)
                              "vasiliev.txt"
     = Err TypeError.
Proof.
  split; [reflexivity|].
  apply (@C1_one_row_catalog_raises Fixture.runtime
           (Fixture.one_file "vasiliev.txt" Fixture.one_row)
           "vasiliev.txt" Fixture.one_row
           ["NGC104"; "6.024"; "-72.081"; "4.5"; "-17.2"; "0.2"; "5.25"; "-2.53";
            "0.01"; "0.01"; "-0.02"; "18.3"; "23918"]).
  - reflexivity.
  - reflexivity.
  - apply wellformedb_true. reflexivity.
Defined.

Lemma C2_miss_gives_zero_record_and_false_witness :
  fst (Parameters.get_selected_GC "M4" Fixture.catalog)
  = Ok (Parameters.not_found, false)
  /\ Parameters.isInJSONParametersFile
       (Fixture.one_file "parameters.json" Fixture.store_text)
       "parameters.json" "M4"
     = Ok (ParametersGC.default, false).
Proof.
  destruct (@C2_miss_gives_zero_record_and_false Fixture.runtime Fixture.store)
    as [Hcat Hstore].
  split.
  - apply (Hcat "M4" Fixture.catalog).
    repeat constructor; unfold cluster_matches; simpl; discriminate.
  - apply (Hstore (Fixture.one_file "parameters.json" Fixture.store_text)
             "parameters.json" Fixture.store_text "M4"
             (mkParametersList [Fixture.omega_cen])
             (mkParametersList [Fixture.omega_cen])).
    + reflexivity.
    + reflexivity.
    + reflexivity.
    + repeat constructor; unfold parameters_match; simpl; discriminate.
Defined.

Lemma C3_lookup_ignores_case_witness :
  case_variant "ngc104" "NGC104" = true
  /\ fst (Parameters.get_selected_GC "ngc104" Fixture.catalog)
     = fst (Parameters.get_selected_GC "NGC104" Fixture.catalog)
  /\ Parameters.isInJSONParametersFile
       (Fixture.one_file "parameters.json" Fixture.store_text)
       "parameters.json" "ngc104"
     = Parameters.isInJSONParametersFile
         (Fixture.one_file "parameters.json" Fixture.store_text)
         "parameters.json" "NGC104".
Proof.
  split; [reflexivity|].
  destruct (@C3_lookup_ignores_case Fixture.runtime Fixture.store
              "ngc104" "NGC104" eq_refl) as [Hcat Hstore].
  split; [apply Hcat | apply Hstore].
Defined.

Lemma C4_first_of_duplicates_wins_witness :
  Parameters.get_GC_params (Fixture.one_file "vasiliev.txt" Fixture.two_rows)
                           "vasiliev.txt"
  = Ok Fixture.catalog
  /\ Parameters.get_selected_GC "Ngc104" Fixture.catalog
     = (Ok (Fixture.tucanae, true), []).
Proof.
  assert (H : Parameters.get_GC_params
                (Fixture.one_file "vasiliev.txt" Fixture.two_rows) "vasiliev.txt"
              = Ok Fixture.catalog) by (reflexivity).
  split; [exact H|].
  destruct (@C4_first_of_duplicates_wins Fixture.runtime _ _ _ H) as [_ Hfirst].
  apply (Hfirst "Ngc104" [] [] [] Fixture.tucanae Fixture.tucanae_again).
  - reflexivity.
  - reflexivity.
  - reflexivity.
  - constructor.
Defined.

Lemma C5_hit_returns_coerced_copy_witness :
  ParametersGC.width_minim Fixture.omega_cen = PyStr "1.5"
  /\ Parameters.isInJSONParametersFile
       (Fixture.one_file "parameters.json" Fixture.store_text)
       "parameters.json" "ngc5139"
     = Ok (Fixture.omega_cen_found, true)
  /\ ParametersGC.width_minim Fixture.omega_cen_found = PyFloat (Qmake 3 2).
Proof.
  split; [reflexivity|]. split; [|reflexivity].
  destruct (@C5_hit_returns_coerced_copy Fixture.runtime Fixture.store
              (Fixture.one_file "parameters.json" Fixture.store_text)
              "parameters.json" Fixture.store_text "ngc5139"
              (mkParametersList [Fixture.omega_cen])
              (mkParametersList [Fixture.omega_cen])
              [] [] Fixture.omega_cen) as [Hcopy _].
  - reflexivity.
  - reflexivity.
  - reflexivity.
  - reflexivity.
  - constructor.
  - reflexivity.
  - apply Hcopy. unfold coerced. simpl. repeat split; reflexivity.
Defined.

Example short_row_raises :
  Parameters.get_GC_params (Fixture.one_file "vasiliev.txt" Fixture.short_row)
                           "vasiliev.txt"
  = Err (ValueError (Some 1%nat)).
Proof. reflexivity. Qed.

Example word_row_raises :
  Parameters.get_GC_params (Fixture.one_file "vasiliev.txt" Fixture.word_row)
                           "vasiliev.txt"
  = Err (ValueError (Some 1%nat)).
Proof. reflexivity. Qed.

Lemma C6_malformed_row_raises_witness :
  exists (i : nat) (bad : list string),
    nth_error (np.data_rows Fixture.word_row) i = Some bad
    /\ malformed bad
    /\ (forall k toks, (k < i)%nat ->
                       nth_error (np.data_rows Fixture.word_row) k = Some toks ->
                       wellformed toks)
    /\ Parameters.get_GC_params
         (Fixture.one_file "vasiliev.txt" Fixture.word_row) "vasiliev.txt"
       = Err (ValueError (Some i)).
Proof.
  apply (@C6_malformed_row_raises Fixture.runtime
           (Fixture.one_file "vasiliev.txt" Fixture.word_row)
           "vasiliev.txt" Fixture.word_row eq_refl).
  set (rows := np.data_rows Fixture.word_row). vm_compute in rows. subst rows.
  apply Exists_cons_tl, Exists_cons_hd.
  right. exists 2%nat, "south". split; [lia|]. split; reflexivity.
Defined.

Lemma C7_unreadable_file_raises_witness :
  Parameters.get_GC_params (Fixture.one_file "vasiliev.txt" Fixture.two_rows)
                           "missing.txt"
  = Err OSError
  /\ Parameters.isInJSONParametersFile
       (Fixture.one_file "parameters.json" Fixture.store_text)
       "missing.json" "NGC5139"
     = Err OSError.
Proof.
  split.
  - apply (@C7_unreadable_file_raises Fixture.runtime Fixture.store
             (Fixture.one_file "vasiliev.txt" Fixture.two_rows) "missing.txt").
    reflexivity.
  - apply (@C7_unreadable_file_raises Fixture.runtime Fixture.store
             (Fixture.one_file "parameters.json" Fixture.store_text)
             "missing.json").
    reflexivity.
Defined.

Lemma C8_no_data_rows_gives_empty_catalog_witness :
  Parameters.get_GC_params (Fixture.one_file "vasiliev.txt" Fixture.no_row)
                           "vasiliev.txt"
  = Ok (mkVasilievList [])
  /\ fst (Parameters.get_selected_GC "NGC104" (mkVasilievList []))
     = Ok (Parameters.not_found, false).
Proof.
  destruct (@C8_no_data_rows_gives_empty_catalog Fixture.runtime
              (Fixture.one_file "vasiliev.txt" Fixture.no_row)
              "vasiliev.txt" Fixture.no_row eq_refl) as [Hload Hfind].
  - set (lines := splitlines Fixture.no_row). vm_compute in lines.
    subst lines. repeat constructor.
  - split; [exact Hload | apply (Hfind "NGC104")].
Defined.

Lemma C9_variants_disagree_witness :
  Parameters_JSON.isInJSONParametersFile
    (Fixture.one_file "parameters.json" Fixture.store_text) "parameters.json"
  = Err NameError
  /\ Parameters.isInJSONParametersFile
       (Fixture.one_file "parameters.json" Fixture.store_text)
       "parameters.json" "NGC5139"
     = Ok (Fixture.omega_cen_found, true).
Proof.
  destruct (@C9_variants_disagree Fixture.runtime Fixture.store
              (Fixture.one_file "parameters.json" Fixture.store_text)
              "parameters.json" Fixture.store_text
              (mkParametersList [Fixture.omega_cen])
              (mkParametersList [Fixture.omega_cen])) as [Hne _].
  - reflexivity.
  - reflexivity.
  - reflexivity.
  - split; [apply Hne; discriminate | reflexivity].
Defined.

Lemma C10_hit_returns_stored_name_witness :
  Parameters.get_selected_GC "ngc104" Fixture.catalog
  = (Ok (Fixture.tucanae, true), [])
  /\ VasilievData.name Fixture.tucanae = "NGC104"
  /\ Parameters.isInJSONParametersFile
       (Fixture.one_file "parameters.json" Fixture.store_text)
       "parameters.json" "ngc5139"
     = Ok (Fixture.omega_cen_found, true)
  /\ ParametersGC.name Fixture.omega_cen_found = "NGC5139".
Proof.
  destruct (@C10_hit_returns_stored_name Fixture.runtime Fixture.store)
    as (Hcat & Hstore & _).
  split; [|split; [reflexivity|split; [|reflexivity]]].
  - apply (Hcat "ngc104" [] [Fixture.tucanae_again] Fixture.tucanae).
    + constructor.
    + reflexivity.
  - apply (Hstore (Fixture.one_file "parameters.json" Fixture.store_text)
             "parameters.json" Fixture.store_text "ngc5139"
             (mkParametersList [Fixture.omega_cen])
             (mkParametersList [Fixture.omega_cen])
             [] [] Fixture.omega_cen Fixture.omega_cen_found).
    + reflexivity.
    + reflexivity.
    + reflexivity.
    + reflexivity.
    + constructor.
    + reflexivity.
    + reflexivity.
Defined.

(** * The further properties on the example files *)




Lemma comments_change_nothing_witness :
  Parameters.get_GC_params
    (Fixture.one_file "with.txt"
       (Fixture.line "NGC104" ++ newline ++ "  # checked" ++ newline
        ++ Fixture.line "NGC288"))
    "with.txt"
  = Parameters.get_GC_params
      (Fixture.one_file "without.txt"
         (Fixture.line "NGC104" ++ newline ++ Fixture.line "NGC288"))
      "without.txt"
  /\ Parameters.get_GC_params
       (Fixture.one_file "with.txt"
          (Fixture.line "NGC104" ++ newline
           ++ (Fixture.line "NGC288" ++ String hash " from Harris") ++ newline
           ++ Fixture.line "NGC362"))
       "with.txt"
     = Parameters.get_GC_params
         (Fixture.one_file "without.txt"
            (Fixture.line "NGC104" ++ newline ++ Fixture.line "NGC288" ++ newline
             ++ Fixture.line "NGC362"))
         "without.txt".
Proof.
  destruct (@comments_change_nothing Fixture.runtime) as [Hline Htail].
  split.
  - apply (Hline _ _ "with.txt" "without.txt" (Fixture.line "NGC104")
             (Fixture.line "NGC288") "  # checked"); reflexivity.
  - apply (Htail _ _ "with.txt" "without.txt" (Fixture.line "NGC104")
             (Fixture.line "NGC362") (Fixture.line "NGC288") " from Harris");
      reflexivity.
Defined.

Lemma rendered_catalog_loads_witness :
  exists cat,
    Parameters.get_GC_params
      (Fixture.one_file "vasiliev.txt"
         (render [Fixture.fields "NGC104"; Fixture.fields "NGC288"]))
      "vasiliev.txt" = Ok cat
    /\ Forall2 (fun toks rec => exists r, np.convert_row 0 toks = Ok r
                                          /\ rec = record_of_row r)
               [Fixture.fields "NGC104"; Fixture.fields "NGC288"] (data cat).
Proof.
  apply (@rendered_catalog_loads Fixture.runtime).
  - reflexivity.
  - repeat constructor.
  - repeat constructor; apply wellformedb_true; reflexivity.
  - simpl. lia.
Defined.

Lemma undecodable_document_raises_witness :
  Parameters.isInJSONParametersFile
    (Fixture.one_file "parameters.json" "{ globular_cluster: [")
    "parameters.json" "NGC5139"
  = Err JSONDecodeError
  /\ Parameters_JSON.isInJSONParametersFile
       (Fixture.one_file "parameters.json" "{ globular_cluster: [")
       "parameters.json"
     = Err JSONDecodeError.
Proof.
  destruct (@undecodable_document_raises Fixture.runtime Fixture.store
              (Fixture.one_file "parameters.json" "{ globular_cluster: [")
              "parameters.json" "{ globular_cluster: [" JSONDecodeError eq_refl)
    as [H1 H2].
  - left. reflexivity.
  - split; [apply H1 | exact H2].
Defined.


Lemma returned_parameters_are_typed_witness :
  declared_types Fixture.omega_cen_found
  /\ Parameters.cluster_found Fixture.omega_cen_found = Ok Fixture.omega_cen_found.
Proof.
  destruct (@returned_parameters_are_typed Fixture.runtime Fixture.store
              (Fixture.one_file "parameters.json" Fixture.store_text)
              "parameters.json" "ngc5139" Fixture.omega_cen_found true eq_refl)
    as (Hty & Hid & _).
  split; [exact Hty | exact Hid].
Defined.


Lemma typed_document_lookup_witness :
  exists (r : ParametersGC.t) (b : bool),
    @Parameters.isInJSONParametersFile Fixture.runtime Fixture.typed_store
      (Fixture.one_file "parameters.json" Fixture.store_text)
      "parameters.json" "ngc5139" = Ok (r, b)
    /\ (b = true <-> Exists (parameters_match "ngc5139") [Fixture.omega_cen_found])
    /\ (b = true -> In r [Fixture.omega_cen_found] /\ parameters_match "ngc5139" r)
    /\ (b = false -> r = ParametersGC.default).
Proof.
  apply (@typed_document_lookup Fixture.runtime Fixture.typed_store
           (Fixture.one_file "parameters.json" Fixture.store_text)
           "parameters.json" Fixture.store_text "ngc5139"
           (mkParametersList [Fixture.omega_cen_found])
           (mkParametersList [Fixture.omega_cen_found])).
  - reflexivity.
  - reflexivity.
  - reflexivity.
  - repeat constructor; unfold is_float, is_int; simpl; eauto.
Defined.

Lemma lookup_by_returned_name_witness :
  Parameters.get_selected_GC "NGC104" Fixture.catalog
  = (Ok (Fixture.tucanae, true), [])
  /\ Parameters.isInJSONParametersFile
       (Fixture.one_file "parameters.json" Fixture.store_text)
       "parameters.json" "NGC5139"
     = Ok (Fixture.omega_cen_found, true).
Proof.
  destruct (@lookup_by_returned_name Fixture.runtime Fixture.store)
    as [Hcat Hstore].
  split.
  - apply (Hcat "ngc104" Fixture.catalog Fixture.tucanae). reflexivity.
  - apply (Hstore (Fixture.one_file "parameters.json" Fixture.store_text)
             "parameters.json" "ngc5139" Fixture.omega_cen_found).
    reflexivity.
Defined.

Lemma padding_changes_nothing_witness :
  Parameters.get_GC_params
    (Fixture.one_file "padded.txt"
       (Fixture.line "NGC104" ++ newline ++ ("NGC288" ++ "  1 2 3 4 5 6 7 8 9 10 11 12")
        ++ newline ++ Fixture.line "NGC362"))
    "padded.txt"
  = Parameters.get_GC_params
      (Fixture.one_file "plain.txt"
         (Fixture.line "NGC104" ++ newline ++ ("NGC288" ++ " 1 2 3 4 5 6 7 8 9 10 11 12")
          ++ newline ++ Fixture.line "NGC362"))
      "plain.txt".
Proof.
  apply (@padding_changes_nothing Fixture.runtime _ _ "padded.txt" "plain.txt"
           (Fixture.line "NGC104") (Fixture.line "NGC362") "NGC288"
           "1 2 3 4 5 6 7 8 9 10 11 12" " "%char " "%char); reflexivity.
Defined.
